(** * robosite: the robot-learning dataset loader

    A shallow embedding of [server/utils/load_dataset.py] (class
    [RobotLearningDataset]) and the properties of its tabular projection,
    statistics, filters and loaders.

    Conventions of the embedding.
    - JSON values read from disk are values of [json]; the payloads the code
      only passes through ([label_data], [info], message ids) stay opaque.
    - A message, a label and a session are records with the keys the code
      reads; the two keys read with [dict.get] are [option] fields.
    - Aggregator instances live in a heap (object identity matters to the
      filters, which allocate a new instance and append to it); methods that
      allocate, mutate or print are computations of the monad [M], methods
      that only read [self] are functions of the instance's value.
    - Exceptions are values of [exn]; a raised exception keeps the heap as it
      was at the raise, as in Python.
    - A path is a string, read and joined the way [pathlib] does on a POSIX
      system; the file system maps the string of a path to its content.
    - [pd.to_datetime] is a parameter of the development; the worked
      examples instantiate it with a parser of ISO-8601 timestamps.
    - The [/] of two Python ints is IEEE 754 binary64 division, taken from
      the Standard Library's [SpecFloat]. *)

From Stdlib Require Import ZArith Ascii SpecFloat.
From stdpp Require Import gmap strings list fin_maps.

Local Open Scope string_scope.
Local Open Scope list_scope.
Set Warnings "-register-all,-clear-no-such-hyp".

(** ** Data model *)

(** The values [json.load] produces. The code never looks inside a number,
    so integers stand for all of them. *)
Inductive json : Type :=
| JNull
| JBool (b : bool)
| JNum (n : Z)
| JStr (s : string)
| JArr (xs : list json)
| JObj (kvs : list (string * json)).

Record Label := mkLabel {
  label_type : string;
  label_data : json;
}.

(** [video_frame_id] and [labels] are the keys read with [item.get]; [None]
    is the key being absent. *)
Record Message := mkMessage {
  msg_id : json;
  command : string;
  sender : string;
  timestamp : string;
  video_frame_id : option json;
  labels : option (list Label);
}.

Record Session := mkSession {
  session_id : string;
  data : list Message;
  info : json;
}.

Record RobotLearningDataset := mkDataset {
  data_dir : string;
  exports_dir : string;
  sessions : list Session;
}.

(** [item.get('labels', [])] *)
Definition get_labels (item : Message) : list Label :=
  default [] (labels item).

(** ** The file system the loaders read *)

Record manifest_entry := mkEntry {
  entry_session_id : string;
}.

(** A parsed JSON document, by the top-level keys the loaders index. *)
Record document := mkDocument {
  doc_data : option (list Message);
  doc_info : option json;
  doc_sessions : option (list manifest_entry);
}.

(** A path that exists holds either text [json.load] rejects ([None]) or a
    document. *)
Definition filesystem : Type := gmap string (option document).

(** *** Paths

    A path is written as a string and read the way [pathlib.PurePosixPath]
    reads it: a root, and the components between slashes that are neither
    empty nor a single dot. *)

Definition is_sep (c : Ascii.ascii) : bool := Ascii.eqb c "/"%char.

(** [s.split('/')] *)
Fixpoint split_sep (s : string) : list string :=
  match s with
  | EmptyString => [""]
  | String c s' =>
      if is_sep c then "" :: split_sep s'
      else match split_sep s' with
           | p :: ps => String c p :: ps
           | [] => [String c ""]
           end
  end.

(** The root [posixpath.splitroot] finds: none for a relative path, two
    slashes when the path starts with exactly two, one slash otherwise. *)
Definition root_of (s : string) : string :=
  match s with
  | String c1 (String c2 (String c3 _)) =>
      if is_sep c1 then
        if is_sep c2 then if is_sep c3 then "/" else "//" else "/"
      else ""
  | String c1 (String c2 EmptyString) =>
      if is_sep c1 then if is_sep c2 then "//" else "/" else ""
  | String c1 EmptyString => if is_sep c1 then "/" else ""
  | EmptyString => ""
  end.

(** The parts kept by the parser: [x for x in rel.split('/') if x and
    x != '.']. *)
Definition parts_of (s : string) : list string :=
  filter (λ p, p ≠ "" ∧ p ≠ ".") (split_sep s).

(** ['/'.join(parts)] *)
Fixpoint join_sep (ps : list string) : string :=
  match ps with
  | [] => ""
  | [p] => p
  | p :: ps' => p +:+ "/" +:+ join_sep ps'
  end.

(** [str(Path(s))]: root and parts, or a single dot when both are
    empty. *)
Definition normal (s : string) : string :=
  match root_of s +:+ join_sep (parts_of s) with
  | EmptyString => "."
  | p => p
  end.

Definition starts_with_sep (s : string) : bool :=
  match s with
  | String c _ => is_sep c
  | EmptyString => false
  end.

Fixpoint ends_with_sep (s : string) : bool :=
  match s with
  | EmptyString => false
  | String c EmptyString => is_sep c
  | String _ s' => ends_with_sep s'
  end.

(** [posixpath.join(a, b)]: an absolute [b] replaces [a]. *)
Definition posix_join (a b : string) : string :=
  if starts_with_sep b then b
  else match a with
       | EmptyString => b
       | _ => if ends_with_sep a then a +:+ b else a +:+ "/" +:+ b
       end.

(** [str(Path(dir) / name)] *)
Definition path_join (dir name : string) : string :=
  normal (posix_join dir name).

(** ** Heap, exceptions and the monad of methods *)

Definition loc : Type := positive.

(** The exceptions the methods raise. [ValueError] is what [pd.to_datetime]
    raises on a string it cannot parse. [InvalidReference] has no Python
    counterpart: it is the outcome of a method called on a reference that
    was never allocated, which the statements below exclude. *)
Inductive exn : Type :=
| FileNotFoundError (msg : string)
| JSONDecodeError
| KeyError (key : string)
| ValueError
| InvalidReference.

(** What a method can change: the instances, and the lines printed. *)
Record world := mkWorld {
  heap : gmap loc RobotLearningDataset;
  stdout : list string;
}.

(** A method returns a value or raises, and leaves a world behind in both
    cases. *)
Definition M (A : Type) : Type := world → (exn + A) * world.

Definition ret {A} (a : A) : M A := λ w, (inr a, w).

Definition bind {A B} (m : M A) (k : A → M B) : M B :=
  λ w, match m w with
       | (inr a, w') => k a w'
       | (inl e, w') => (inl e, w')
       end.

Definition raise {A} (e : exn) : M A := λ w, (inl e, w).

Declare Scope M_scope.
Delimit Scope M_scope with M.
Notation "'let*' x ':=' m 'in' k" := (bind m (λ x, k))
  (at level 10, x name, m at level 100, k at level 200) : M_scope.
Notation "m ;;; k" := (bind m (λ _, k))
  (at level 100, right associativity) : M_scope.
Local Open Scope M_scope.

(** [try: body except FileNotFoundError: handler] *)
Definition try_except_FileNotFoundError {A} (body handler : M A) : M A :=
  λ w, match body w with
       | (inl (FileNotFoundError _), w') => handler w'
       | r => r
       end.

(** [for x in xs: body x] *)
Fixpoint for_each {A} (xs : list A) (body : A → M unit) : M unit :=
  match xs with
  | [] => ret tt
  | x :: xs' => body x ;;; for_each xs' body
  end.

(** [print(line)] *)
Definition print (line : string) : M unit :=
  λ w, (inr tt, mkWorld (heap w) (stdout w ++ [line])).

(** Reading the instance behind a reference. *)
Definition deref (self : loc) : M RobotLearningDataset :=
  λ w, match heap w !! self with
       | Some d => (inr d, w)
       | None => (inl InvalidReference, w)
       end.

(** [self.sessions.append(s)] *)
Definition sessions_append (self : loc) (s : Session) : M unit :=
  λ w, match heap w !! self with
       | Some d =>
           (inr tt,
            mkWorld (<[self := mkDataset (data_dir d) (exports_dir d)
                                         (sessions d ++ [s])]> (heap w))
                    (stdout w))
       | None => (inl InvalidReference, w)
       end.

(** [RobotLearningDataset(data_dir)]: a new object with an empty session
    list. *)
Definition __init__ (data_dir' : string) : M loc :=
  λ w, let self := fresh (dom (heap w)) in
       (inr self,
        mkWorld (<[self := mkDataset data_dir' (path_join data_dir' "exports")
                                     []]> (heap w))
                (stdout w)).

(** [json.load(open(path))] *)
Definition json_load (fs : filesystem) (path : string) : M document :=
  match fs !! path with
  | Some (Some doc) => ret doc
  | Some None => raise JSONDecodeError
  | None => raise (FileNotFoundError path)
  end.

(** [doc[key]] on an optional top-level key *)
Definition getitem {A} (key : string) (field : option A) : M A :=
  match field with
  | Some v => ret v
  | None => raise (KeyError key)
  end.

(** [path.exists()] *)
Definition exists_ (fs : filesystem) (path : string) : bool :=
  bool_decide (is_Some (fs !! path)).

(** ** Loaders *)

Definition session_file (d : RobotLearningDataset) (session_id' : string)
  : string :=
  path_join (exports_dir d) (session_id' +:+ "_huggingface.json").

Definition manifest_file (d : RobotLearningDataset) : string :=
  path_join (exports_dir d) "dataset_manifest.json".

Definition load_session (fs : filesystem) (self : loc) (session_id' : string)
  : M unit :=
  let* d := deref self in
  let session_file' := session_file d session_id' in
  if negb (exists_ fs session_file') then
    raise (FileNotFoundError ("Session export not found: " +:+ session_file'))
  else
    let* doc := json_load fs session_file' in
    let* data' := getitem "data" (doc_data doc) in
    let* info' := getitem "info" (doc_info doc) in
    sessions_append self (mkSession session_id' data' info').

Definition load_from_manifest (fs : filesystem) (self : loc) : M unit :=
  let* d := deref self in
  let manifest_file' := manifest_file d in
  if negb (exists_ fs manifest_file') then
    raise (FileNotFoundError ("Dataset manifest not found: " +:+ manifest_file'))
  else
    let* manifest := json_load fs manifest_file' in
    let* entries := getitem "sessions" (doc_sessions manifest) in
    for_each entries (λ session,
      try_except_FileNotFoundError
        (load_session fs self (entry_session_id session))
        (print ("Warning: Could not load session " +:+ entry_session_id session))).

Definition from_session (fs : filesystem) (session_id' data_dir' : string)
  : M loc :=
  let* dataset := __init__ data_dir' in
  load_session fs dataset session_id' ;;;
  ret dataset.

Definition from_manifest (fs : filesystem) (data_dir' : string) : M loc :=
  let* dataset := __init__ data_dir' in
  load_from_manifest fs dataset ;;;
  ret dataset.

(** ** Filters: a new instance, filled by appending

    Both filters iterate over [self.sessions] while they append to
    [filtered.sessions]. [filtered] is a newly allocated object, so the list
    being iterated is not the one that grows, and the loop runs over the
    sessions as they were read on entry. *)

Definition filter_by_sender (self : loc) (sender' : string) : M loc :=
  let* d := deref self in
  let* filtered := __init__ (data_dir d) in
  for_each (sessions d) (λ session,
    let filtered_data :=
      filter (λ item, sender item = sender') (data session) in
    match filtered_data with
    | _ :: _ =>
        sessions_append filtered
          (mkSession (session_id session) filtered_data (info session))
    | [] => ret tt
    end) ;;;
  ret filtered.

(** The inner loop of [filter_by_labels]: [filtered_data] grows by
    [append]; a message without labels is skipped by [continue]. *)
Definition labels_loop (label_type' : option string) (items : list Message)
  : list Message :=
  fold_left (λ filtered_data item,
    let labels' := get_labels item in
    match labels' with
    | [] => filtered_data
    | _ :: _ =>
        match label_type' with
        | None => filtered_data ++ [item]
        | Some t =>
            if existsb (λ label, bool_decide (label_type label = t)) labels'
            then filtered_data ++ [item]
            else filtered_data
        end
    end) items [].

Definition filter_by_labels (self : loc) (label_type' : option string)
  : M loc :=
  let* d := deref self in
  let* filtered := __init__ (data_dir d) in
  for_each (sessions d) (λ session,
    let filtered_data := labels_loop label_type' (data session) in
    match filtered_data with
    | _ :: _ =>
        sessions_append filtered
          (mkSession (session_id session) filtered_data (info session))
    | [] => ret tt
    end) ;;;
  ret filtered.

(** ** Statistics *)

(** A number [get_statistics] reports: a Python int, or a float as the
    IEEE 754 binary64 value it is. *)
Inductive number : Type :=
| Int (n : Z)
| Float (x : spec_float).

Record statistics := mkStatistics {
  total_sessions : nat;
  total_messages : nat;
  total_labels : nat;
  messages_by_sender : gmap string nat;
  avg_messages_per_session : number;
  avg_labels_per_message : number;
}.

(** A non-negative Python int as an operand of the division: the integer
    itself, with exponent 0 and no rounding. *)
Definition int_operand (n : nat) : spec_float :=
  match n with
  | O => S754_zero false
  | S _ => S754_finite false (Pos.of_nat n) 0
  end.

(** Python's [a / b] on two non-negative ints with [b] non-zero: the
    quotient rounded once, to the nearest binary64 with ties to even. The
    counts divided here are lengths of lists, far below the size at which
    Python raises [OverflowError] instead. *)
Definition true_div (a b : nat) : spec_float :=
  SFdiv 53 1024 (int_operand a) (int_operand b).

(** The body of the nested loop: one message updates the sender counters
    and the label total. *)
Definition count_item (acc : gmap string nat * nat) (item : Message)
  : gmap string nat * nat :=
  let '(senders, total_labels') := acc in
  (<[sender item := default 0 (senders !! sender item) + 1]> senders,
   total_labels' + length (get_labels item)).

Definition get_statistics (self : RobotLearningDataset) : statistics :=
  let total_messages' :=
    fold_left (λ acc s, acc + length (data s)) (sessions self) 0 in
  let '(senders, total_labels') :=
    fold_left (λ acc session, fold_left count_item (data session) acc)
              (sessions self) (∅, 0) in
  mkStatistics
    (length (sessions self))
    total_messages'
    total_labels'
    senders
    (match sessions self with
     | _ :: _ => Float (true_div total_messages' (length (sessions self)))
     | [] => Int 0
     end)
    (match total_messages' with
     | S _ => Float (true_div total_labels' total_messages')
     | O => Int 0
     end).

(** ** The tabular projection *)

(** A value held by a cell: what came from JSON (Python's [None] is
    [JNull], an int is [JNum]) or a parsed timestamp. *)
Inductive pyval (Timestamp : Type) : Type :=
| Json (v : json)
| Datetime (t : Timestamp).
Arguments Json {Timestamp} _.
Arguments Datetime {Timestamp} _.

(** [pd.DataFrame(rows)] of a list of dicts: one record per dict, the
    columns being the keys that occur in some dict; a record without a key
    has a null in that column. *)
Record DataFrame (Timestamp : Type) := mkDataFrame {
  columns : gset string;
  records : list (gmap string (pyval Timestamp));
}.
Arguments mkDataFrame {Timestamp} _ _.
Arguments columns {Timestamp} _.
Arguments records {Timestamp} _.

Definition pd_DataFrame {Timestamp} (rows : list (gmap string (pyval Timestamp)))
  : DataFrame Timestamp :=
  mkDataFrame (⋃ (dom <$> rows)) rows.

(** [df.iloc[i][column]], [None] standing for a null cell. *)
Definition cell {Timestamp} (df : DataFrame Timestamp) (i : nat)
    (column : string) : option (pyval Timestamp) :=
  row ← records df !! i; row !! column.

(** [f'label_{label_type}'] *)
Definition label_column (label_type' : string) : string :=
  "label_" +:+ label_type'.

Section projection.
Context {Timestamp : Type}.
(** [pd.to_datetime] on a string; [None] when it raises. *)
Variable to_datetime : string → option Timestamp.

(** The body of the inner loop: the dict literal, [label_count], then
    one assignment per label. *)
Definition make_row (session_id' : string) (item : Message)
  : exn + gmap string (pyval Timestamp) :=
  match to_datetime (timestamp item) with
  | None => inl ValueError
  | Some ts =>
      let row : gmap string (pyval Timestamp) :=
        <["video_frame_id" := Json (default JNull (video_frame_id item))]>
        (<["timestamp" := Datetime ts]>
        (<["sender" := Json (JStr (sender item))]>
        (<["command" := Json (JStr (command item))]>
        (<["message_id" := Json (msg_id item)]>
        (<["session_id" := Json (JStr session_id')]> ∅))))) in
      let labels' := get_labels item in
      let row :=
        <["label_count" := Json (JNum (Z.of_nat (length labels')))]> row in
      inr match labels' with
          | [] => row
          | _ :: _ =>
              fold_left (λ row label,
                <[label_column (label_type label) :=
                    Json (label_data label)]> row) labels' row
          end
  end.

(** [for item in session['data']: ... rows.append(row)] *)
Fixpoint items_loop (session_id' : string) (items : list Message)
    (rows : list (gmap string (pyval Timestamp)))
  : exn + list (gmap string (pyval Timestamp)) :=
  match items with
  | [] => inr rows
  | item :: items' =>
      match make_row session_id' item with
      | inl e => inl e
      | inr row => items_loop session_id' items' (rows ++ [row])
      end
  end.

(** [for session in self.sessions: ...] *)
Fixpoint sessions_loop (ss : list Session)
    (rows : list (gmap string (pyval Timestamp)))
  : exn + list (gmap string (pyval Timestamp)) :=
  match ss with
  | [] => inr rows
  | session :: ss' =>
      match items_loop (session_id session) (data session) rows with
      | inl e => inl e
      | inr rows' => sessions_loop ss' rows'
      end
  end.

Definition to_dataframe (self : RobotLearningDataset)
  : exn + DataFrame Timestamp :=
  match sessions_loop (sessions self) [] with
  | inl e => inl e
  | inr rows => inr (pd_DataFrame rows)
  end.
End projection.

(** ** The records of the two framework conversions *)

(** One record the generator of [to_tensorflow] yields. *)
Record tf_record := mkTfRecord {
  tf_command : string;
  tf_sender : string;
  tf_timestamp : string;
  tf_video_frame_id : json;
  tf_label_count : nat;
}.

(** The inner function [generator] of [to_tensorflow], as the sequence of
    the records it yields. *)
Definition generator (self : RobotLearningDataset) : list tf_record :=
  fold_left (λ yielded session,
    fold_left (λ yielded item,
      yielded ++ [mkTfRecord (command item) (sender item) (timestamp item)
                             (default (JStr "") (video_frame_id item))
                             (length (get_labels item))])
      (data session) yielded)
    (sessions self) [].

(** One record of the list [to_huggingface] builds. *)
Record hf_record := mkHfRecord {
  hf_session_id : string;
  hf_id : json;
  hf_command : string;
  hf_sender : string;
  hf_timestamp : string;
  hf_video_frame_id : json;
  hf_labels : list Label;
}.

(** The list [all_data] that [to_huggingface] hands to
    [Dataset.from_list]. *)
Definition all_data (self : RobotLearningDataset) : list hf_record :=
  fold_left (λ all_data' session,
    fold_left (λ all_data' item,
      all_data' ++ [mkHfRecord (session_id session) (msg_id item)
                               (command item) (sender item) (timestamp item)
                               (default JNull (video_frame_id item))
                               (get_labels item)])
      (data session) all_data')
    (sessions self) [].

(** ** Vocabulary of the statements *)

(** Every message of the collection with the id of its session, in
    session order, then message order. *)
Definition tagged_messages (self : RobotLearningDataset)
  : list (string * Message) :=
  flat_map (λ s, (λ m, (session_id s, m)) <$> data s) (sessions self).

Definition all_messages (self : RobotLearningDataset) : list Message :=
  flat_map data (sessions self).

(** The data of the last label of type [t] in a label sequence. *)
Definition last_of_type (t : string) (ls : list Label) : option json :=
  label_data <$> last (filter (λ l, label_type l = t) ls).

(** A message carries a label of type [t]. *)
Definition carries (t : string) (item : Message) : Prop :=
  ∃ l, l ∈ get_labels item ∧ label_type l = t.

(** What the label filter is to keep. *)
Definition label_match (label_type' : option string) (item : Message) : Prop :=
  match label_type' with
  | None => get_labels item ≠ []
  | Some t => carries t item
  end.

#[global] Instance carries_dec t item : Decision (carries t item).
Proof.
  refine (cast_if (decide (Exists (λ l, label_type l = t) (get_labels item))));
    unfold carries; by rewrite <-Exists_exists.
Defined.

#[global] Instance non_nil_dec {A} (l : list A) : Decision (l ≠ []).
Proof. destruct l; [right; by intros H|left; done]. Defined.

#[global] Instance label_match_dec lt item : Decision (label_match lt item).
Proof. destruct lt; apply _. Defined.

(** A session cut down to the messages that satisfy [P]. *)
Definition restrict (P : Message → Prop) `{!∀ m, Decision (P m)}
    (s : Session) : Session :=
  mkSession (session_id s) (filter P (data s)) (info s).

(** The sessions a filter is to produce: each session cut down, the
    empty ones dropped. *)
Definition kept_sessions (P : Message → Prop) `{!∀ m, Decision (P m)}
    (ss : list Session) : list Session :=
  filter (λ s, data s ≠ []) (restrict P <$> ss).

(** The timestamps of the collection are ones [pd.to_datetime] parses. *)
Definition parseable {Timestamp} (to_datetime : string → option Timestamp)
    (self : RobotLearningDataset) : Prop :=
  Forall (λ m, is_Some (to_datetime (timestamp m))) (all_messages self).

(** The columns of the dict literal. *)
Definition base_columns : list string :=
  ["session_id"; "message_id"; "command"; "sender"; "timestamp";
   "video_frame_id"].

(** The row before the label loop: the dict literal and [label_count]. *)
Definition base_row {Timestamp} (session_id' : string) (item : Message)
    (ts : Timestamp) : gmap string (pyval Timestamp) :=
  <["label_count" := Json (JNum (Z.of_nat (length (get_labels item))))]>
  (<["video_frame_id" := Json (default JNull (video_frame_id item))]>
  (<["timestamp" := Datetime ts]>
  (<["sender" := Json (JStr (sender item))]>
  (<["command" := Json (JStr (command item))]>
  (<["message_id" := Json (msg_id item)]>
  (<["session_id" := Json (JStr session_id')]> ∅)))))).

(** The label loop on its own. *)
Definition assign_labels {Timestamp} (ls : list Label)
    (r : gmap string (pyval Timestamp)) : gmap string (pyval Timestamp) :=
  fold_left (λ row label,
    <[label_column (label_type label) := Json (label_data label)]> row)
    ls r.

(** The row of a message whose timestamp parsed to [ts]. *)
Definition row_of {Timestamp} (session_id' : string) (item : Message)
    (ts : Timestamp) : gmap string (pyval Timestamp) :=
  assign_labels (get_labels item) (base_row session_id' item ts).

(** [rows] are the rows of the tagged messages [sms], one each, in order. *)
Definition rows_of {Timestamp} (to_datetime : string → option Timestamp)
    (sms : list (string * Message))
    (rows : list (gmap string (pyval Timestamp))) : Prop :=
  Forall2 (λ sm r, ∃ ts, to_datetime (timestamp sm.2) = Some ts ∧
                         r = row_of sm.1 sm.2 ts) sms rows.

(** A label of type [t] occurs somewhere in the collection. *)
Definition observed (t : string) (self : RobotLearningDataset) : Prop :=
  ∃ sm, sm ∈ tagged_messages self ∧ carries t sm.2.

(** The column [label_<t>] of the projection: it exists when [t] is
    observed, holds the data of a label of type [t] on the rows of the
    messages that carry one, and is null on every other row. *)
Definition label_column_exact {Timestamp}
    (self : RobotLearningDataset) (df : DataFrame Timestamp) (t : string)
  : Prop :=
  (observed t self → label_column t ∈ columns df) ∧
  ∀ i sm, tagged_messages self !! i = Some sm →
    (carries t sm.2 →
       ∃ l, l ∈ get_labels sm.2 ∧ label_type l = t ∧
            cell df i (label_column t) = Some (Json (label_data l))) ∧
    (¬ carries t sm.2 → cell df i (label_column t) = None).

(** The cell [label_<t>] of row [i] holds the data of the last label of
    type [t] of message [m]. *)
Definition last_label_wins {Timestamp} (df : DataFrame Timestamp) (i : nat)
    (m : Message) (t : string) : Prop :=
  cell df i (label_column t) = Json <$> last_of_type t (get_labels m).

(** The cell [label_count] of row [i] is the number of labels of [m]. *)
Definition label_count_counts {Timestamp} (df : DataFrame Timestamp)
    (i : nat) (m : Message) : Prop :=
  cell df i "label_count" =
  Some (Json (JNum (Z.of_nat (length (get_labels m))))).

(** Type [t] occurs at least twice among the labels of [m]. *)
Definition repeated (t : string) (m : Message) : Prop :=
  (2 ≤ length (filter (λ l, label_type l = t) (get_labels m)))%nat.

(** On every row whose message repeats a label type, the last label of
    that type wins and [label_count] still counts all the labels. *)
Definition repeated_type_rows {Timestamp}
    (self : RobotLearningDataset) (df : DataFrame Timestamp) : Prop :=
  ∀ i sm t, tagged_messages self !! i = Some sm → repeated t sm.2 →
    last_label_wins df i sm.2 t ∧ label_count_counts df i sm.2.

(** An integer as a binary64 operand that is exact: mantissa and sign of
    the integer, exponent 0. *)
Definition exact (z : Z) : spec_float :=
  match z with
  | Z0 => S754_zero false
  | Zpos p => S754_finite false p 0
  | Zneg p => S754_finite true p 0
  end.

(** The binary64 division of IEEE 754, as the standard library specifies
    it, on two integers. *)
Definition binary64_quotient (a b : Z) : spec_float :=
  SFdiv 53 1024 (exact a) (exact b).

(** The binary64 number [m * 2 ^ e]. *)
Definition binary64 (m : positive) (e : Z) : spec_float :=
  S754_finite false m e.

(** The number of messages of a sequence sent by [s]. *)
Definition sender_count (s : string) (items : list Message) : nat :=
  length (filter (λ m, sender m = s) items).

(** The loop both filters run over the sessions, [keep] computing
    [filtered_data]. *)
Definition filter_loop (filtered : loc) (keep : Session → list Message)
    (ss : list Session) : M unit :=
  for_each ss (λ session,
    let filtered_data := keep session in
    match filtered_data with
    | _ :: _ =>
        sessions_append filtered
          (mkSession (session_id session) filtered_data (info session))
    | [] => ret tt
    end).

(** The instance a filter called on [d] builds from the sessions [ss]. *)
Definition filtered_instance (d : RobotLearningDataset) (ss : list Session)
  : RobotLearningDataset :=
  mkDataset (data_dir d) (path_join (data_dir d) "exports") ss.

(** The world after a filter has allocated [r] and filled it with [ss]. *)
Definition with_filtered (w : world) (r : loc) (d : RobotLearningDataset)
    (ss : list Session) : world :=
  mkWorld (<[r := filtered_instance d ss]> (heap w)) (stdout w).

(** The mask [df['sender'] == s] on one record. *)
Definition sender_is {Timestamp} (s : string)
    (r : gmap string (pyval Timestamp)) : bool :=
  match r !! "sender" with
  | Some (Json (JStr s')) => bool_decide (s' = s)
  | _ => false
  end.

(** A filter call that took world [w] to [w'] and returned [r] left the
    instance behind [self] as it was: [r] is a new object, every object
    that existed keeps its value, nothing was printed, and appending to the
    result afterwards still leaves [self] alone. *)
Definition leaves_original (w w' : world) (r self : loc)
    (d : RobotLearningDataset) : Prop :=
  r ≠ self ∧ heap w !! r = None ∧
  heap w' !! self = Some d ∧
  (∀ l, l ≠ r → heap w' !! l = heap w !! l) ∧
  stdout w' = stdout w ∧
  ∀ s, ∃ w'', sessions_append r s w' = (inr tt, w'') ∧
              heap w'' !! self = Some d.

(** The session a manifest entry resolves to: its export exists, parses
    and has both keys. *)
Definition found (fs : filesystem) (d : RobotLearningDataset)
    (e : manifest_entry) : option Session :=
  match fs !! session_file d (entry_session_id e) with
  | Some (Some doc) =>
      match doc_data doc, doc_info doc with
      | Some data', Some info' =>
          Some (mkSession (entry_session_id e) data' info')
      | _, _ => None
      end
  | _ => None
  end.

(** The export of a manifest entry does not exist. *)
Definition missing (fs : filesystem) (d : RobotLearningDataset)
    (e : manifest_entry) : Prop :=
  fs !! session_file d (entry_session_id e) = None.

(** Every listed export that exists is a well-formed export. *)
Definition readable (fs : filesystem) (d : RobotLearningDataset)
    (entries : list manifest_entry) : Prop :=
  Forall (λ e, missing fs d e ∨ is_Some (found fs d e)) entries.

(** The line printed for an entry that could not be loaded. *)
Definition warning (e : manifest_entry) : string :=
  "Warning: Could not load session " +:+ entry_session_id e.

(** [d] with [ss] appended to its sessions. *)
Definition extended (d : RobotLearningDataset) (ss : list Session)
  : RobotLearningDataset :=
  mkDataset (data_dir d) (exports_dir d) (sessions d ++ ss).

(** [sum(senders.values())] *)
Definition sum_values (m : gmap string nat) : nat :=
  map_fold (λ _ n acc, n + acc) 0 m.

(** The record the generator yields for one message. *)
Definition tf_of (item : Message) : tf_record :=
  mkTfRecord (command item) (sender item) (timestamp item)
             (default (JStr "") (video_frame_id item))
             (length (get_labels item)).

(** The record [to_huggingface] builds for one message of session
    [session_id']. *)
Definition hf_of (sm : string * Message) : hf_record :=
  mkHfRecord sm.1 (msg_id sm.2) (command sm.2) (sender sm.2)
             (timestamp sm.2) (default JNull (video_frame_id sm.2))
             (get_labels sm.2).

(** The method [f] behaves as a filter that keeps the messages satisfying
    [P]: called on an instance, it allocates the next reference and fills
    it with the kept sessions. *)
Definition filters_as (f : loc → M loc) (P : Message → Prop)
    `{!∀ m, Decision (P m)} : Prop :=
  ∀ self w d, heap w !! self = Some d →
    f self w =
    (inr (fresh (dom (heap w))),
     with_filtered w (fresh (dom (heap w))) d (kept_sessions P (sessions d))).

(** ** Worked examples *)

Module Examples.
(** The timestamps of the examples, read the way [pd.to_datetime] reads
    them.  The interface writes ISO-8601 timestamps, and this parser covers
    their plain form [YYYY-MM-DDTHH:MM:SS], with the calendar checked and
    the year inside the range a pandas [Timestamp] can hold; the empty
    string gives [NaT], as in pandas.  Every other string is refused here:
    pandas accepts more formats than this one, and the examples use none
    of them. *)
Inductive stamp : Type :=
  | NaT
  | At (year month day hour minute second : N).

Definition digit (c : Ascii.ascii) : option N :=
  let n := Ascii.N_of_ascii c in
  if decide (48 ≤ n ≤ 57)%N then Some (n - 48)%N else None.

Fixpoint number_of (acc : N) (cs : list Ascii.ascii) : option N :=
  match cs with
  | [] => Some acc
  | c :: cs => d ← digit c; number_of (10 * acc + d)%N cs
  end.

Definition leap (y : N) : bool :=
  bool_decide ((y mod 4 = 0 ∧ y mod 100 ≠ 0) ∨ y mod 400 = 0)%N.

Definition days_in (y m : N) : N :=
  match m with
  | 1 | 3 | 5 | 7 | 8 | 10 | 12 => 31
  | 4 | 6 | 9 | 11 => 30
  | 2 => if leap y then 29 else 28
  | _ => 0
  end%N.

Definition to_datetime (s : string) : option stamp :=
  match String.list_ascii_of_string s with
  | [] => Some NaT
  | [y1; y2; y3; y4; d1; m1; m2; d2; a1; a2; t; h1; h2; c1; n1; n2; c2;
     e1; e2] =>
      if decide ([d1; d2; t; c1; c2] =
                 ["-"; "-"; "T"; ":"; ":"]%char) then
        y ← number_of 0 [y1; y2; y3; y4];
        m ← number_of 0 [m1; m2];
        d ← number_of 0 [a1; a2];
        h ← number_of 0 [h1; h2];
        n ← number_of 0 [n1; n2];
        e ← number_of 0 [e1; e2];
        if decide (1678 ≤ y ≤ 2261 ∧ 1 ≤ d ≤ days_in y m ∧
                   h ≤ 23 ∧ n ≤ 59 ∧ e ≤ 59)%N
        then Some (At y m d h n e) else None
      else None
  | _ => None
  end.

Definition quality (v : string) : Label := mkLabel "quality" (JStr v).

Definition labelled : Message :=
  mkMessage (JNum 1) "pick up the cube" "scientist" "2024-05-01T10:00:00"
            None (Some [quality "good"]).

Definition plain : Message :=
  mkMessage (JNum 2) "picking up" "robot" "2024-05-01T10:00:05"
            (Some (JStr "frame_7")) None.

(** Two labels of one type. *)
Definition relabelled : Message :=
  mkMessage (JNum 3) "put it down" "scientist" "2024-05-01T10:01:00"
            None (Some [quality "good"; quality "bad"]).

(** A label whose type is ["count"]. *)
Definition counted : Message :=
  mkMessage (JNum 4) "count the cubes" "scientist" "2024-05-01T10:02:00"
            None (Some [mkLabel "count" (JNum 7)]).

(** Two labels whose type is ["count"]. *)
Definition recounted : Message :=
  mkMessage (JNum 5) "count again" "scientist" "2024-05-01T10:03:00"
            None (Some [mkLabel "count" (JNum 7); mkLabel "count" (JNum 8)]).

Definition s1 : Session := mkSession "s1" [labelled; plain] (JObj []).
Definition s3 : Session := mkSession "s3" [relabelled] (JObj []).
Definition s4 : Session := mkSession "s4" [counted; plain] (JObj []).
Definition s5 : Session := mkSession "s5" [recounted] (JObj []).

Definition collection (ss : list Session) : RobotLearningDataset :=
  mkDataset "../data" "../data/exports" ss.

(** A world with one instance, at reference 1. *)
Definition holding (ss : list Session) : world :=
  mkWorld {[ 1%positive := collection ss ]} [].

Definition export (s : Session) : option document :=
  Some (mkDocument (Some (data s)) (Some (info s)) None).

(** The frame of the rows of the messages of [ss]. *)
Definition frame (ss : list Session) : DataFrame stamp :=
  pd_DataFrame ((λ sm, row_of sm.1 sm.2
                         (default NaT (to_datetime (timestamp sm.2))))
                  <$> tagged_messages (collection ss)).

Definition entries : list manifest_entry :=
  [mkEntry "s1"; mkEntry "s2"; mkEntry "s3"].

(** A manifest of three sessions; the export of [s2] is not there. *)
Definition disk : filesystem :=
  <["../data/exports/dataset_manifest.json" :=
      Some (mkDocument None None (Some entries))]>
  (<["../data/exports/s1_huggingface.json" := export s1]>
  (<["../data/exports/s3_huggingface.json" := export s3]> ∅)).

(** A disk whose manifest is not JSON. *)
Definition no_manifest_disk : filesystem :=
  {[ "../data/exports/dataset_manifest.json" := None ]}.

(** The same disk with an export for [s2] that is not JSON. *)
Definition broken_disk : filesystem :=
  <["../data/exports/s2_huggingface.json" := None]> disk.
End Examples.

(** * Properties *)

(** ** Paths and numbers, computed *)

(** [Path(dir) / name] on the shapes of directory and name that matter to
    the loaders: an empty or dotted directory, a trailing slash, an
    absolute name, and dots and doubled slashes inside a name. *)
Lemma path_join_values :
  path_join "../data" "exports" = "../data/exports" ∧
  path_join "../data/" "exports" = "../data/exports" ∧
  path_join "" "exports" = "exports" ∧
  path_join "." "exports" = "exports" ∧
  path_join "/" "exports" = "/exports" ∧
  path_join "//srv" "exports" = "//srv/exports" ∧
  path_join "///srv" "exports" = "/srv/exports" ∧
  path_join "../data/exports" "/tmp/s9_huggingface.json"
    = "/tmp/s9_huggingface.json" ∧
  path_join "../data/exports" "./s1_huggingface.json"
    = "../data/exports/s1_huggingface.json" ∧
  path_join "../data/exports" "a//b_huggingface.json"
    = "../data/exports/a/b_huggingface.json" ∧
  path_join "../data/exports" "../s1_huggingface.json"
    = "../data/exports/../s1_huggingface.json" ∧
  path_join "" "." = ".".
Proof. by vm_compute. Qed.

(** [a / b] on small counts: 1/2, 1/3, 2/3, 3/1, 7/2 and 0/5 as the
    doubles Python prints as 0.5, 0.3333333333333333, 0.6666666666666666,
    3.0, 3.5 and 0.0. *)
Lemma true_div_values :
  true_div 1 2 = binary64 4503599627370496 (-53) ∧
  true_div 1 3 = binary64 6004799503160661 (-54) ∧
  true_div 2 3 = binary64 6004799503160661 (-53) ∧
  true_div 3 1 = binary64 6755399441055744 (-51) ∧
  true_div 7 2 = binary64 7881299347898368 (-51) ∧
  true_div 0 5 = S754_zero false.
Proof. by vm_compute. Qed.

(** The parser of the examples: a timestamp of the interface, the empty
    string, text that is no date, and dates and times the calendar or the
    clock does not have. *)
Lemma to_datetime_values :
  Examples.to_datetime "2024-05-01T10:00:00"
    = Some (Examples.At 2024 5 1 10 0 0) ∧
  Examples.to_datetime "2024-02-29T23:59:59"
    = Some (Examples.At 2024 2 29 23 59 59) ∧
  Examples.to_datetime "" = Some Examples.NaT ∧
  Examples.to_datetime "not a date" = None ∧
  Examples.to_datetime "2023-02-29T00:00:00" = None ∧
  Examples.to_datetime "2024-13-01T10:00:00" = None ∧
  Examples.to_datetime "2024-05-01T24:00:00" = None.
Proof. by vm_compute. Qed.

(** ** Column names *)

Lemma label_column_inj t t' : label_column t = label_column t' → t = t'.
Proof. unfold label_column. apply (inj _). Qed.

Lemma label_column_count t : label_column t = "label_count" ↔ t = "count".
Proof.
  split; [|by intros ->].
  change "label_count" with (label_column "count"). apply label_column_inj.
Qed.

Lemma label_column_not_base t : label_column t ∉ base_columns.
Proof.
  unfold base_columns, label_column. cbv [String.append].
  rewrite !elem_of_cons, elem_of_nil. intros H.
  repeat (destruct H as [H|H]; [discriminate H|]). done.
Qed.

(** ** The label assignments of one row *)

Section rows.
Context {Timestamp : Type}.
Local Abbreviation row := (gmap string (pyval Timestamp)).

Lemma assign_labels_snoc ls l (r : row) :
  assign_labels (ls ++ [l]) r =
  <[label_column (label_type l) := Json (label_data l)]> (assign_labels ls r).
Proof. unfold assign_labels. by rewrite fold_left_app. Qed.

(** A key that is no label column of the sequence keeps its cell. *)
Lemma assign_labels_other ls (r : row) k :
  (∀ l, l ∈ ls → label_column (label_type l) ≠ k) →
  assign_labels ls r !! k = r !! k.
Proof.
  induction ls as [|l ls IH] using rev_ind; intros Hk; [done|].
  rewrite assign_labels_snoc, lookup_insert_ne.
  - apply IH. intros l' Hl'. apply Hk. set_solver.
  - apply Hk. set_solver.
Qed.

(** The column of a type that occurs holds the data of its last label. *)
Lemma assign_labels_type ls (r : row) t :
  assign_labels ls r !! label_column t =
  match last_of_type t ls with
  | Some v => Some (Json v)
  | None => r !! label_column t
  end.
Proof.
  unfold last_of_type.
  induction ls as [|l ls IH] using rev_ind; [done|].
  rewrite assign_labels_snoc, filter_app, filter_cons, filter_nil.
  destruct (decide (label_type l = t)) as [<-|Hne].
  - rewrite last_snoc. simpl. by rewrite lookup_insert_eq.
  - rewrite app_nil_r, lookup_insert_ne; [done|].
    intros ?%label_column_inj. done.
Qed.

Lemma assign_labels_dom ls (r : row) :
  dom (assign_labels ls r) =
  dom r ∪ list_to_set (label_column ∘ label_type <$> ls).
Proof.
  induction ls as [|l ls IH] using rev_ind.
  - simpl. set_solver.
  - rewrite assign_labels_snoc, dom_insert_L, IH, fmap_app, list_to_set_app_L.
    simpl. set_solver.
Qed.

Lemma last_of_type_None t ls :
  last_of_type t ls = None ↔ ∀ l, l ∈ ls → label_type l ≠ t.
Proof.
  unfold last_of_type. rewrite fmap_None, last_None. split.
  - intros Hnil l Hl Ht.
    by apply (filter_nil_not_elem_of (λ l, label_type l = t) ls l).
  - intros Hall.
    destruct (filter _ ls) as [|l ls'] eqn:Hf; [done|].
    assert (l ∈ filter (λ l, label_type l = t) ls) as Hin
      by (rewrite Hf; left).
    apply list_elem_of_filter in Hin as [Ht Hin]. by destruct (Hall l Hin).
Qed.

Lemma last_of_type_Some t ls :
  is_Some (last_of_type t ls) ↔ ∃ l, l ∈ ls ∧ label_type l = t.
Proof.
  split.
  - intros [v Hv]. unfold last_of_type in Hv.
    apply fmap_Some in Hv as (l & Hl & _).
    apply last_Some_elem_of, list_elem_of_filter in Hl. naive_solver.
  - intros (l & Hin & Ht). apply not_eq_None_Some. intros Hn.
    by apply (proj1 (last_of_type_None t ls) Hn l).
Qed.

(** The cells of the dict literal survive the label loop. *)
Lemma row_of_base sid m (ts : Timestamp) k :
  k ∈ base_columns →
  row_of sid m ts !! k = base_row sid m ts !! k.
Proof.
  intros Hk. unfold row_of. apply assign_labels_other.
  intros l _ <-. by apply (label_column_not_base (label_type l)).
Qed.

Lemma row_of_session_id sid m (ts : Timestamp) :
  row_of sid m ts !! "session_id" = Some (Json (JStr sid)).
Proof. rewrite row_of_base; [done|]. unfold base_columns. set_solver. Qed.

Lemma row_of_message_id sid m (ts : Timestamp) :
  row_of sid m ts !! "message_id" = Some (Json (msg_id m)).
Proof. rewrite row_of_base; [done|]. unfold base_columns. set_solver. Qed.

Lemma row_of_sender sid m (ts : Timestamp) :
  row_of sid m ts !! "sender" = Some (Json (JStr (sender m))).
Proof. rewrite row_of_base; [done|]. unfold base_columns. set_solver. Qed.

Lemma base_row_label sid m (ts : Timestamp) t :
  t ≠ "count" → base_row sid m ts !! label_column t = None.
Proof.
  intros Ht. pose proof (label_column_not_base t) as Hb.
  unfold base_columns in Hb. unfold base_row.
  rewrite lookup_insert_ne by (by intros ?%eq_sym%label_column_count).
  rewrite !lookup_insert_ne by (intros Heq; rewrite <-Heq in Hb; set_solver).
  done.
Qed.

Lemma row_of_label sid m (ts : Timestamp) t :
  t ≠ "count" →
  row_of sid m ts !! label_column t = Json <$> last_of_type t (get_labels m).
Proof.
  intros Ht. unfold row_of. rewrite assign_labels_type.
  destruct (last_of_type t (get_labels m)); [done|].
  by apply base_row_label.
Qed.

Lemma row_of_label_carried sid m (ts : Timestamp) t :
  carries t m →
  row_of sid m ts !! label_column t = Json <$> last_of_type t (get_labels m).
Proof.
  intros [v Hv]%last_of_type_Some. unfold row_of.
  by rewrite assign_labels_type, Hv.
Qed.

Lemma row_of_label_count sid m (ts : Timestamp) :
  ¬ carries "count" m →
  row_of sid m ts !! "label_count" =
  Some (Json (JNum (Z.of_nat (length (get_labels m))))).
Proof.
  intros Hc. unfold row_of. rewrite assign_labels_other; [done|].
  intros l Hl Heq%label_column_count. apply Hc. by exists l.
Qed.

Lemma row_of_dom sid m (ts : Timestamp) :
  dom (row_of sid m ts) =
  list_to_set base_columns ∪ {["label_count"]} ∪
  list_to_set (label_column ∘ label_type <$> get_labels m).
Proof.
  unfold row_of. rewrite assign_labels_dom. f_equal.
  all: unfold base_row, base_columns; rewrite !dom_insert_L, dom_empty_L.
  all: set_solver.
Qed.

Lemma last_of_type_elem t ls v :
  last_of_type t ls = Some v →
  ∃ l, l ∈ ls ∧ label_type l = t ∧ label_data l = v.
Proof.
  unfold last_of_type. intros (l & Hl & ->)%fmap_Some.
  apply last_Some_elem_of, list_elem_of_filter in Hl. naive_solver.
Qed.

Lemma tagged_messages_length self :
  length (tagged_messages self) =
  sum_list_with (length ∘ data) (sessions self).
Proof.
  unfold tagged_messages. induction (sessions self) as [|s ss IH]; [done|].
  simpl. by rewrite length_app, length_fmap, IH.
Qed.

Lemma repeated_carries t m : repeated t m → carries t m.
Proof.
  unfold repeated, carries. intros Hlen.
  destruct (filter _ (get_labels m)) as [|l ls] eqn:Hf; [simpl in Hlen; lia|].
  assert (l ∈ filter (λ l, label_type l = t) (get_labels m)) as Hin
    by (rewrite Hf; left).
  apply list_elem_of_filter in Hin. naive_solver.
Qed.

End rows.

(** ** The loops of the projection *)

Section tabular.
Context {Timestamp : Type}.
Variable to_datetime : string → option Timestamp.
Local Abbreviation row := (gmap string (pyval Timestamp)).

Lemma make_row_eq sid m :
  make_row to_datetime sid m =
  match to_datetime (timestamp m) with
  | None => inl ValueError
  | Some ts => inr (row_of sid m ts)
  end.
Proof.
  unfold make_row, row_of, base_row, assign_labels.
  destruct (to_datetime (timestamp m)); [|done].
  by destruct (get_labels m).
Qed.

Lemma items_loop_spec sid items (rows : list row) :
  Forall (λ m, is_Some (to_datetime (timestamp m))) items →
  ∃ new, items_loop to_datetime sid items rows = inr (rows ++ new) ∧
         rows_of to_datetime ((λ m, (sid, m)) <$> items) new.
Proof.
  intros Hall. revert rows.
  induction Hall as [|m items [ts Hts] _ IH]; intros rows.
  - exists []. split; [by rewrite app_nil_r|constructor].
  - destruct (IH (rows ++ [row_of sid m ts])) as (new & Hloop & Hrows).
    exists (row_of sid m ts :: new). split.
    + simpl. rewrite make_row_eq, Hts, Hloop. by rewrite <-app_assoc.
    + constructor; [by exists ts|done].
Qed.

Lemma sessions_loop_spec ss (rows : list row) :
  Forall (λ m, is_Some (to_datetime (timestamp m))) (flat_map data ss) →
  ∃ new, sessions_loop to_datetime ss rows = inr (rows ++ new) ∧
         rows_of to_datetime
           (flat_map (λ s, (λ m, (session_id s, m)) <$> data s) ss) new.
Proof.
  revert rows. induction ss as [|s ss IH]; intros rows Hall.
  - exists []. split; [by rewrite app_nil_r|constructor].
  - simpl in Hall. apply Forall_app in Hall as [Hs Hss].
    destruct (items_loop_spec (session_id s) (data s) rows Hs)
      as (new1 & Hloop1 & Hrows1).
    destruct (IH (rows ++ new1) Hss) as (new2 & Hloop2 & Hrows2).
    exists (new1 ++ new2). split.
    + simpl. rewrite Hloop1, Hloop2. by rewrite <-app_assoc.
    + by apply Forall2_app.
Qed.

(** The projection of a collection with parseable timestamps is the
    frame of the rows of its messages. *)
Lemma to_dataframe_spec self :
  parseable to_datetime self →
  ∃ rows, to_dataframe to_datetime self = inr (pd_DataFrame rows) ∧
          rows_of to_datetime (tagged_messages self) rows.
Proof.
  intros Hp. destruct (sessions_loop_spec (sessions self) [] Hp)
    as (rows & Hloop & Hrows).
  exists rows. unfold to_dataframe. by rewrite Hloop.
Qed.

Lemma items_loop_parse sid items (rows rows' : list row) :
  items_loop to_datetime sid items rows = inr rows' →
  Forall (λ m, is_Some (to_datetime (timestamp m))) items.
Proof.
  revert rows. induction items as [|m items IH]; intros rows Hloop;
    [constructor|].
  simpl in Hloop. rewrite make_row_eq in Hloop.
  destruct (to_datetime (timestamp m)) as [ts|] eqn:Hts; [|done].
  constructor; [by rewrite Hts|by eapply IH].
Qed.

Lemma sessions_loop_parse ss (rows rows' : list row) :
  sessions_loop to_datetime ss rows = inr rows' →
  Forall (λ m, is_Some (to_datetime (timestamp m))) (flat_map data ss).
Proof.
  revert rows. induction ss as [|s ss IH]; intros rows Hloop; [constructor|].
  simpl in Hloop.
  destruct (items_loop to_datetime (session_id s) (data s) rows)
    as [e|rows1] eqn:Hitems; [done|].
  simpl. apply Forall_app. split; [by eapply items_loop_parse|by eapply IH].
Qed.

(** The projection raises exactly when some timestamp does not parse. *)
Lemma to_dataframe_parseable self df :
  to_dataframe to_datetime self = inr df → parseable to_datetime self.
Proof.
  unfold to_dataframe. intros Hdf.
  destruct (sessions_loop to_datetime (sessions self) []) as [e|rows] eqn:Hloop;
    [done|].
  by eapply sessions_loop_parse.
Qed.

(** A frame the projection returns is the frame of the rows of the
    messages. *)
Lemma to_dataframe_inr self df :
  to_dataframe to_datetime self = inr df →
  ∃ rows, df = pd_DataFrame rows ∧
          rows_of to_datetime (tagged_messages self) rows.
Proof.
  intros Hdf.
  destruct (to_dataframe_spec self (to_dataframe_parseable self df Hdf))
    as (rows & Hdf' & Hrows).
  exists rows. split; [congruence|done].
Qed.

(** C1. [to_dataframe] returns a frame exactly when the timestamps of the
    collection parse, and a frame it returns has exactly one row per
    message: the number of rows is the sum of the message counts of the
    sessions, the i-th row is the row built from the i-th message in
    session order then message order, and so the [session_id] and
    [message_id] columns read off the messages in that order. *)
Theorem to_dataframe_one_row_per_message self :
  (parseable to_datetime self ↔
   ∃ df, to_dataframe to_datetime self = inr df) ∧
  ∀ df, to_dataframe to_datetime self = inr df →
    length (records df) = sum_list_with (length ∘ data) (sessions self) ∧
    rows_of to_datetime (tagged_messages self) (records df) ∧
    (λ r : row, (r !! "session_id", r !! "message_id")) <$> records df =
    (λ sm, (Some (Json (JStr sm.1)), Some (Json (msg_id sm.2))))
      <$> tagged_messages self.
Proof.
  split.
  - split.
    + intros Hp. destruct (to_dataframe_spec self Hp) as (rows & Hdf & _).
      by eexists.
    + intros [df Hdf]. by eapply to_dataframe_parseable.
  - intros df Hdf. destruct (to_dataframe_inr self df Hdf) as (rows & -> & Hrows).
    simpl. split; [|split; [done|]].
    + rewrite <-tagged_messages_length. symmetry.
      by eapply Forall2_length.
    + clear Hdf. induction Hrows as [|sm r sms rows (ts & _ & ->) _ IH];
        [done|].
      rewrite !fmap_cons, row_of_session_id, row_of_message_id.
      by f_equal.
Qed.

Lemma cell_rows_of sms (rows : list row) i sm c :
  rows_of to_datetime sms rows → sms !! i = Some sm →
  ∃ ts, cell (pd_DataFrame rows) i c = row_of sm.1 sm.2 ts !! c.
Proof.
  intros Hrows Hi.
  destruct (Forall2_lookup_l _ _ _ _ _ Hrows Hi) as (r & Hr & ts & _ & ->).
  exists ts. unfold cell. simpl. by rewrite Hr.
Qed.

Lemma columns_rows_of sms (rows : list row) c :
  rows_of to_datetime sms rows →
  c ∈ columns (pd_DataFrame rows) ↔
  ∃ sm (ts : Timestamp), sm ∈ sms ∧ c ∈ dom (row_of sm.1 sm.2 ts).
Proof.
  intros Hrows. simpl. rewrite elem_of_union_list. split.
  - intros (X & (r & -> & Hr)%list_elem_of_fmap & Hc).
    apply list_elem_of_lookup in Hr as [i Hi].
    destruct (Forall2_lookup_r _ _ _ _ _ Hrows Hi) as (sm & Hsm & ts & _ & ->).
    exists sm, ts. split; [|done]. by eapply list_elem_of_lookup_2.
  - intros (sm & ts & Hsm & Hc).
    apply list_elem_of_lookup in Hsm as [i Hi].
    destruct (Forall2_lookup_l _ _ _ _ _ Hrows Hi) as (r & Hr & ts' & Hts' & ->).
    exists (dom (row_of sm.1 sm.2 ts')). split.
    + apply list_elem_of_fmap. eexists. split; [done|].
      by eapply list_elem_of_lookup_2.
    + by rewrite row_of_dom in *.
Qed.

(** X23. In a frame [to_dataframe] returns, for every label type [t]
    other than ["count"]: the column [label_<t>] exists exactly when [t] is
    observed; a row whose message carries a label of type [t] holds the
    data of such a label there, the last one of that type; and every other
    row is null there. *)
Theorem label_columns_populated self df t :
  to_dataframe to_datetime self = inr df → t ≠ "count" →
  label_column_exact self df t ∧
  (label_column t ∈ columns df → observed t self) ∧
  ∀ i sm, tagged_messages self !! i = Some sm → last_label_wins df i sm.2 t.
Proof.
  intros Hdf Ht. destruct (to_dataframe_inr self df Hdf) as (rows & -> & Hrows).
  split; [split|split].
  - intros (sm & Hsm & l & Hl & Hlt).
    apply (columns_rows_of _ _ _ Hrows).
    pose proof Hsm as [i Hi]%list_elem_of_lookup.
    destruct (Forall2_lookup_l _ _ _ _ _ Hrows Hi) as (_ & _ & ts & _ & _).
    exists sm, ts. split; [done|]. rewrite row_of_dom.
    apply elem_of_union_r, elem_of_list_to_set, list_elem_of_fmap.
    exists l. by rewrite <-Hlt.
  - intros i sm Hi.
    destruct (cell_rows_of _ _ _ _ (label_column t) Hrows Hi) as [ts ->].
    rewrite row_of_label by done. split.
    + intros [v Hv]%last_of_type_Some. rewrite Hv.
      destruct (last_of_type_elem _ _ _ Hv) as (l & Hl & Hlt & <-).
      by exists l.
    + intros Hc. destruct (last_of_type t (get_labels sm.2)) eqn:Hl; [|done].
      destruct Hc. apply last_of_type_Some. by eexists.
  - intros (sm & ts & Hsm & Hc)%(columns_rows_of _ _ _ Hrows).
    rewrite row_of_dom, !elem_of_union in Hc.
    destruct Hc as [[Hc|Hc]|Hc].
    + apply elem_of_list_to_set in Hc. by apply label_column_not_base in Hc.
    + apply elem_of_singleton, label_column_count in Hc. done.
    + apply elem_of_list_to_set, list_elem_of_fmap in Hc as (l & Heq & Hl).
      apply label_column_inj in Heq. exists sm. split; [done|].
      exists l. by split.
  - intros i sm Hi. unfold last_label_wins.
    destruct (cell_rows_of _ _ _ _ (label_column t) Hrows Hi) as [ts ->].
    by apply row_of_label.
Qed.

(** X24. In a frame [to_dataframe] returns, on the row of a message that
    carries two or more labels of one type [t]: the cell [label_<t>] holds
    the data of the last label of type [t]; the row has one cell per label
    type next to the fixed columns, so no cell is left to hold an earlier
    label of that type; and [label_count] is the number of all labels of
    the message when none of them has type ["count"]. *)
Theorem repeated_type_last_wins self df :
  to_dataframe to_datetime self = inr df →
  ∀ i sm t, tagged_messages self !! i = Some sm → repeated t sm.2 →
    last_label_wins df i sm.2 t ∧
    (∃ r, records df !! i = Some r ∧
          dom r = list_to_set base_columns ∪ {["label_count"]} ∪
                  list_to_set (label_column ∘ label_type
                                 <$> get_labels sm.2)) ∧
    (¬ carries "count" sm.2 → label_count_counts df i sm.2).
Proof.
  intros Hdf. destruct (to_dataframe_inr self df Hdf) as (rows & -> & Hrows).
  intros i sm t Hi Hrep. split; [|split].
  - unfold last_label_wins.
    destruct (cell_rows_of _ _ _ _ (label_column t) Hrows Hi) as [ts ->].
    by apply row_of_label_carried, repeated_carries.
  - destruct (Forall2_lookup_l _ _ _ _ _ Hrows Hi) as (r & Hr & ts & _ & ->).
    exists (row_of sm.1 sm.2 ts). split; [done|]. apply row_of_dom.
  - intros Hc. unfold label_count_counts.
    destruct (cell_rows_of _ _ _ _ "label_count" Hrows Hi) as [ts ->].
    by apply row_of_label_count.
Qed.
End tabular.

(** ** Statistics *)

Section statistics.
Implicit Types (items : list Message) (ss : list Session).

(** The operand of the division is the count itself. *)
Lemma int_operand_exact n : int_operand n = exact (Z.of_nat n).
Proof. destruct n as [|n]; [done|]. simpl. by rewrite Pos.of_nat_succ. Qed.

Lemma true_div_binary64 a b :
  true_div a b = binary64_quotient (Z.of_nat a) (Z.of_nat b).
Proof. unfold true_div, binary64_quotient. by rewrite !int_operand_exact. Qed.

Lemma sessions_fold_flat {A} (f : A → Message → A) ss acc :
  fold_left (λ acc session, fold_left f (data session) acc) ss acc =
  fold_left f (flat_map data ss) acc.
Proof.
  revert acc. induction ss as [|s ss IH]; intros acc; [done|].
  simpl. by rewrite fold_left_app, IH.
Qed.

Lemma total_messages_fold ss n :
  fold_left (λ acc s, acc + length (data s)) ss n =
  n + sum_list_with (length ∘ data) ss.
Proof.
  revert n. induction ss as [|s ss IH]; intros n; csimpl; [lia|].
  rewrite IH. unfold compose. lia.
Qed.

Lemma sender_count_snoc s items m :
  sender_count s (items ++ [m]) =
  sender_count s items + (if decide (sender m = s) then 1 else 0).
Proof.
  unfold sender_count. rewrite filter_app, length_app, filter_cons.
  by destruct (decide (sender m = s)).
Qed.

(** The invariant of the counting loop. *)
Lemma count_items_spec items :
  ∃ senders,
    fold_left count_item items (∅, 0) =
      (senders, sum_list_with (length ∘ get_labels) items) ∧
    ∀ s, senders !! s =
         if decide (sender_count s items = 0) then None
         else Some (sender_count s items).
Proof.
  induction items as [|m items (senders & Hfold & Hs)] using rev_ind.
  - exists ∅. split; [done|]. intros s. by rewrite lookup_empty.
  - rewrite fold_left_app, Hfold. simpl.
    eexists. split.
    + f_equal. rewrite sum_list_with_app. simpl. lia.
    + intros s. rewrite sender_count_snoc.
      destruct (decide (sender m = s)) as [<-|Hne].
      * rewrite lookup_insert_eq, Hs.
        repeat case_decide; simpl; try lia; f_equal; lia.
      * rewrite lookup_insert_ne, Hs, Nat.add_0_r; done.
Qed.

Lemma sum_zero_one (a b : nat) : a + b = 1 → a + (b + 0) = 1.
Proof. lia. Qed.

(** C2. [get_statistics] returns the number of sessions, the messages
    summed over the sessions, the labels summed over all messages, for
    each sender the number of its messages (and no entry for a sender
    without messages), and the two averages: each is the binary64 quotient
    of its two counts, replaced by the int 0 when its divisor is 0; with no
    sessions both averages are 0; and one session of two messages with one
    label between them gives 2 messages, 1 label and an average of 0.5
    label per message, that is [2^52 * 2^-53]. *)
Theorem get_statistics_spec self :
  let st := get_statistics self in
  total_sessions st = length (sessions self) ∧
  total_messages st = sum_list_with (length ∘ data) (sessions self) ∧
  total_labels st = sum_list_with (length ∘ get_labels) (all_messages self) ∧
  (∀ s, messages_by_sender st !! s =
        if decide (sender_count s (all_messages self) = 0) then None
        else Some (sender_count s (all_messages self))) ∧
  avg_messages_per_session st =
    (if decide (total_sessions st = 0) then Int 0
     else Float (binary64_quotient (Z.of_nat (total_messages st))
                                   (Z.of_nat (total_sessions st)))) ∧
  avg_labels_per_message st =
    (if decide (total_messages st = 0) then Int 0
     else Float (binary64_quotient (Z.of_nat (total_labels st))
                                   (Z.of_nat (total_messages st)))) ∧
  (sessions self = [] →
     avg_messages_per_session st = Int 0 ∧ avg_labels_per_message st = Int 0) ∧
  (∀ sid inf m1 m2,
     sessions self = [mkSession sid [m1; m2] inf] →
     length (get_labels m1) + length (get_labels m2) = 1 →
     total_messages st = 2 ∧ total_labels st = 1 ∧
     avg_labels_per_message st = Float (binary64 (2 ^ 52) (-53))).
Proof.
  unfold get_statistics, all_messages.
  rewrite sessions_fold_flat, total_messages_fold. simpl.
  destruct (count_items_spec (flat_map data (sessions self)))
    as (senders & -> & Hs).
  simpl. split_and!; try done.
  - destruct (sessions self); [done|]. by rewrite true_div_binary64.
  - destruct (sum_list_with _ (sessions self)); [done|].
    by rewrite true_div_binary64.
  - by intros ->.
  - intros sid inf m1 m2 -> Hone. simpl.
    by rewrite (sum_zero_one _ _ Hone).
Qed.
End statistics.

(** ** The filters *)

Section filters.
Implicit Types (ss : list Session) (w : world) (d : RobotLearningDataset).

Lemma world_eta w : mkWorld (heap w) (stdout w) = w.
Proof. by destruct w. Qed.

Lemma filter_loop_run filtered keep ss w d0 :
  heap w !! filtered = Some d0 →
  filter_loop filtered keep ss w =
  (inr tt,
   mkWorld (<[filtered :=
                mkDataset (data_dir d0) (exports_dir d0)
                  (sessions d0 ++
                   filter (λ s, data s ≠ [])
                     ((λ s, mkSession (session_id s) (keep s) (info s))
                        <$> ss))]> (heap w))
           (stdout w)).
Proof.
  revert w d0. induction ss as [|s ss IH]; intros w d0 Hd0.
  - simpl. rewrite app_nil_r. unfold ret. f_equal.
    rewrite insert_id; [by rewrite world_eta|]. by destruct d0.
  - unfold filter_loop in *. rewrite fmap_cons.
    cbn [for_each]. unfold bind at 1.
    destruct (keep s) as [|m ms] eqn:Hk.
    + rewrite filter_cons_False by (simpl; by intros Hnn).
      unfold ret at 1. by rewrite (IH w d0 Hd0).
    + rewrite filter_cons_True by done.
      unfold sessions_append at 1. rewrite Hd0.
      erewrite IH by (simpl; apply lookup_insert_eq). simpl.
      by rewrite insert_insert_eq, <-app_assoc.
Qed.

(** A filter allocates a new instance and fills it; nothing else
    changes. *)
Lemma filter_run self keep w d :
  heap w !! self = Some d →
  bind (deref self) (λ d,
    bind (__init__ (data_dir d)) (λ filtered,
      bind (filter_loop filtered keep (sessions d)) (λ _, ret filtered))) w =
  (inr (fresh (dom (heap w))),
   with_filtered w (fresh (dom (heap w))) d
     (filter (λ s, data s ≠ [])
        ((λ s, mkSession (session_id s) (keep s) (info s)) <$> sessions d))).
Proof.
  intros Hd. unfold bind at 1, deref. rewrite Hd.
  unfold bind at 1, __init__. simpl.
  unfold bind. erewrite filter_loop_run by (simpl; apply lookup_insert_eq).
  simpl. unfold ret, with_filtered, filtered_instance.
  by rewrite insert_insert_eq.
Qed.

(** One step of the label loop appends the message exactly when it
    matches. *)
Lemma labels_step lt (m : Message) (acc : list Message) :
  match get_labels m with
  | [] => acc
  | _ :: _ =>
      match lt with
      | None => acc ++ [m]
      | Some t =>
          if existsb (λ label, bool_decide (label_type label = t))
                     (get_labels m)
          then acc ++ [m] else acc
      end
  end = acc ++ filter (label_match lt) [m].
Proof.
  rewrite filter_cons, filter_nil.
  destruct (decide (label_match lt m)) as [Hm|Hm].
  - destruct lt as [t|]; simpl in Hm.
    + destruct Hm as (l & Hl & Ht).
      destruct (get_labels m) as [|l0 ls] eqn:Hls;
        [by apply elem_of_nil in Hl|].
      rewrite (proj2 (existsb_exists _ _)); [done|].
      exists l. rewrite <-list_elem_of_In. split; [done|].
      by apply bool_decide_eq_true.
    + by destruct (get_labels m).
  - rewrite app_nil_r. destruct lt as [t|]; simpl in Hm.
    + destruct (get_labels m) as [|l0 ls] eqn:Hls; [done|].
      destruct (existsb _ _) eqn:Hex; [|done].
      apply existsb_exists in Hex as (l & Hl & Ht).
      destruct Hm. exists l. rewrite Hls, list_elem_of_In.
      split; [done|]. by apply bool_decide_eq_true in Ht.
    + by destruct (get_labels m) as [|l0 ls]; [|destruct Hm].
Qed.

Lemma labels_loop_filter lt items :
  labels_loop lt items = filter (label_match lt) items.
Proof.
  unfold labels_loop.
  induction items as [|m items IH] using rev_ind; [done|].
  rewrite fold_left_app, filter_app, IH. simpl. apply labels_step.
Qed.

Lemma filter_by_sender_run self s w d :
  heap w !! self = Some d →
  filter_by_sender self s w =
  (inr (fresh (dom (heap w))),
   with_filtered w (fresh (dom (heap w))) d
     (kept_sessions (λ m, sender m = s) (sessions d))).
Proof.
  intros Hd.
  apply (filter_run self (λ session, filter (λ item, sender item = s)
                                            (data session)) w d Hd).
Qed.

Lemma filter_by_labels_run self lt w d :
  heap w !! self = Some d →
  filter_by_labels self lt w =
  (inr (fresh (dom (heap w))),
   with_filtered w (fresh (dom (heap w))) d
     (kept_sessions (label_match lt) (sessions d))).
Proof.
  intros Hd. unfold kept_sessions.
  rewrite <-(list_fmap_ext
               (λ s, mkSession (session_id s) (labels_loop lt (data s)) (info s))
               (restrict (label_match lt)) (sessions d))
    by (intros ? s _; unfold restrict; by rewrite labels_loop_filter).
  apply (filter_run self (λ session, labels_loop lt (data session)) w d Hd).
Qed.

Lemma fresh_unallocated w : heap w !! fresh (dom (heap w)) = None.
Proof. apply not_elem_of_dom, is_fresh. Qed.

Lemma kept_sessions_elem (P : Message → Prop) `{!∀ m, Decision (P m)} ss s' :
  s' ∈ kept_sessions P ss ↔
  data s' ≠ [] ∧ ∃ s, s ∈ ss ∧ s' = restrict P s.
Proof.
  unfold kept_sessions. rewrite list_elem_of_filter, list_elem_of_fmap.
  naive_solver.
Qed.

Lemma all_messages_tagged d : all_messages d = (tagged_messages d).*2.
Proof.
  unfold all_messages, tagged_messages.
  induction (sessions d) as [|s ss IH]; [done|].
  simpl. rewrite fmap_app, <-IH, <-list_fmap_compose. f_equal.
  by rewrite list_fmap_id.
Qed.

Lemma filter_tag (P : Message → Prop) `{!∀ m, Decision (P m)}
    (sid : string) (items : list Message) :
  (λ m, (sid, m)) <$> filter P items =
  filter (λ sm, P sm.2) ((λ m, (sid, m)) <$> items).
Proof.
  induction items as [|m items IH]; [done|].
  rewrite fmap_cons, !filter_cons. simpl.
  destruct (decide (P m)); by rewrite ?fmap_cons, IH.
Qed.

(** The tagged messages of the kept sessions are the tagged messages
    that satisfy [P], in the original order. *)
Lemma tagged_kept (P : Message → Prop) `{!∀ m, Decision (P m)} d :
  tagged_messages (filtered_instance d (kept_sessions P (sessions d))) =
  filter (λ sm, P sm.2) (tagged_messages d).
Proof.
  unfold tagged_messages, kept_sessions. simpl.
  induction (sessions d) as [|s ss IH]; [done|].
  rewrite fmap_cons. simpl. rewrite filter_app, <-IH, <-filter_tag.
  destruct (filter P (data s)) as [|m ms] eqn:Hf.
  - by rewrite filter_cons_False by (simpl; rewrite Hf; by intros Hnn).
  - rewrite filter_cons_True by (simpl; by rewrite Hf).
    simpl. by rewrite Hf.
Qed.

Lemma all_messages_kept (P : Message → Prop) `{!∀ m, Decision (P m)} d :
  all_messages (filtered_instance d (kept_sessions P (sessions d))) =
  filter P (all_messages d).
Proof.
  rewrite !all_messages_tagged, tagged_kept.
  induction (tagged_messages d) as [|sm sms IH]; [done|].
  rewrite fmap_cons, !filter_cons.
  destruct (decide (P sm.2)); by rewrite ?fmap_cons, IH.
Qed.

Lemma label_match_labelled lt m : label_match lt m → get_labels m ≠ [].
Proof.
  destruct lt as [t|]; [|done]. intros (l & Hl & _) Hnil.
  rewrite Hnil in Hl. by apply elem_of_nil in Hl.
Qed.

Lemma with_filtered_frame w d self ss :
  heap w !! self = Some d →
  leaves_original w (with_filtered w (fresh (dom (heap w))) d ss)
                  (fresh (dom (heap w))) self d.
Proof.
  intros Hd. pose proof (fresh_unallocated w) as Hfresh.
  assert (fresh (dom (heap w)) ≠ self) as Hne by (intros Heq; congruence).
  unfold leaves_original, with_filtered. simpl. split_and!; try done.
  - by rewrite lookup_insert_ne.
  - intros l Hl. by rewrite lookup_insert_ne.
  - intros s. unfold sessions_append. simpl. rewrite lookup_insert_eq.
    eexists. split; [done|]. simpl. by rewrite !lookup_insert_ne.
Qed.

(** C4. [filter_by_labels] returns a new instance whose sessions are the
    original sessions cut down to the matching messages (any label when
    no type is given, a label of the given type otherwise) with the empty
    ones dropped: it keeps exactly the matching messages, none of the kept
    messages is without a (matching) label, and a session without a
    matching message is not in the result. *)
Theorem filter_by_labels_spec self lt w d :
  heap w !! self = Some d →
  ∃ r w' d',
    filter_by_labels self lt w = (inr r, w') ∧
    heap w !! r = None ∧ heap w' !! r = Some d' ∧
    sessions d' = kept_sessions (label_match lt) (sessions d) ∧
    all_messages d' = filter (label_match lt) (all_messages d) ∧
    (∀ m, m ∈ all_messages d' → get_labels m ≠ [] ∧ label_match lt m) ∧
    (∀ s', s' ∈ sessions d' →
       data s' ≠ [] ∧
       ∃ s, s ∈ sessions d ∧ s' = restrict (label_match lt) s) ∧
    (∀ s, s ∈ sessions d → filter (label_match lt) (data s) = [] →
       restrict (label_match lt) s ∉ sessions d').
Proof.
  intros Hd. eexists _, _, _. split; [by apply filter_by_labels_run|].
  split; [apply fresh_unallocated|].
  split; [apply lookup_insert_eq|].
  split; [done|]. split; [apply all_messages_kept|]. split_and!.
  - intros m. rewrite all_messages_kept, list_elem_of_filter.
    intros [Hm _]. split; [by eapply label_match_labelled|done].
  - intros s'. simpl. by rewrite kept_sessions_elem.
  - intros s _ Hnil. simpl. rewrite kept_sessions_elem. intros [Hne _].
    by apply Hne.
Qed.

(** C5. Neither filter changes the instance it is called on: the result
    is a newly allocated object, the original and every other existing
    object hold the same value after the call (same sessions, with their
    identifiers, messages and info), and a later append to the result does
    not reach the original. *)
Theorem filters_leave_original self w d :
  heap w !! self = Some d →
  (∀ s, ∃ r w', filter_by_sender self s w = (inr r, w') ∧
                leaves_original w w' r self d) ∧
  (∀ lt, ∃ r w', filter_by_labels self lt w = (inr r, w') ∧
                 leaves_original w w' r self d).
Proof.
  intros Hd. split.
  - intros s. eexists _, _. split; [by apply filter_by_sender_run|].
    by apply with_filtered_frame.
  - intros lt. eexists _, _. split; [by apply filter_by_labels_run|].
    by apply with_filtered_frame.
Qed.
End filters.

(** ** The sender filter and the projection *)

Section sender_filter.
Context {Timestamp : Type}.
Variable to_datetime : string → option Timestamp.
Local Abbreviation row := (gmap string (pyval Timestamp)).

Lemma sender_is_row_of s sid m (ts : Timestamp) :
  sender_is s (row_of sid m ts) ↔ sender m = s.
Proof.
  unfold sender_is. rewrite row_of_sender. apply bool_decide_spec.
Qed.

Lemma rows_of_filter_sender s sms (rows : list row) :
  rows_of to_datetime sms rows →
  rows_of to_datetime (filter (λ sm, sender sm.2 = s) sms)
                      (filter (sender_is s) rows).
Proof.
  induction 1 as [|sm r sms rows (ts & Hts & ->) _ IH]; [constructor|].
  rewrite !filter_cons.
  destruct (decide (sender sm.2 = s)) as [Hs|Hs].
  - rewrite decide_True by (by apply sender_is_row_of).
    constructor; [by exists ts|done].
  - by rewrite decide_False by (by rewrite sender_is_row_of).
Qed.

Lemma rows_of_functional sms (rows1 rows2 : list row) :
  rows_of to_datetime sms rows1 → rows_of to_datetime sms rows2 →
  rows1 = rows2.
Proof.
  intros H1. revert rows2.
  induction H1 as [|sm r sms rows (ts & Hts & ->) _ IH]; intros rows2 H2.
  - by inversion H2.
  - inversion H2 as [|sm' r' sms' rows' (ts' & Hts' & ->) Hrest]; subst.
    f_equal; [congruence|by apply IH].
Qed.

Lemma parseable_kept (P : Message → Prop) `{!∀ m, Decision (P m)} d :
  parseable to_datetime d →
  parseable to_datetime (filtered_instance d (kept_sessions P (sessions d))).
Proof.
  unfold parseable. rewrite all_messages_kept, !Forall_forall.
  intros Hall m [_ Hm]%list_elem_of_filter. by apply Hall.
Qed.

(** C3. [filter_by_sender s] returns a new instance whose sessions are,
    in order, the original sessions that have a message sent by [s], each
    with its [session_id] and [info] and exactly its messages sent by [s];
    no session of the result is empty; and when the original has a
    projection, so has the result, and it consists of the rows of the
    original projection whose [sender] is [s]: each of its rows has
    [sender] equal to [s], and there are as many as the original projection
    has rows with that sender. *)
Theorem filter_by_sender_spec self s w d :
  heap w !! self = Some d →
  ∃ r w' d',
    filter_by_sender self s w = (inr r, w') ∧
    heap w !! r = None ∧ heap w' !! r = Some d' ∧
    sessions d' = kept_sessions (λ m, sender m = s) (sessions d) ∧
    (∀ s', s' ∈ sessions d' ↔
       data s' ≠ [] ∧
       ∃ s0, s0 ∈ sessions d ∧ s' = restrict (λ m, sender m = s) s0) ∧
    (∀ df, to_dataframe to_datetime d = inr df →
       ∃ df',
         to_dataframe to_datetime d' = inr df' ∧
         Forall (λ r : row, r !! "sender" = Some (Json (JStr s)))
                (records df') ∧
         records df' = filter (sender_is s) (records df) ∧
         length (records df') = length (filter (sender_is s) (records df))).
Proof.
  intros Hd. eexists _, _, _. split; [by apply filter_by_sender_run|].
  split; [apply fresh_unallocated|].
  split; [apply lookup_insert_eq|].
  split; [done|]. split.
  - intros s'. simpl. apply kept_sessions_elem.
  - intros df Hdf.
    pose proof (to_dataframe_parseable to_datetime d df Hdf) as Hp.
    destruct (to_dataframe_inr to_datetime d df Hdf) as (rows & -> & Hrows).
    destruct (to_dataframe_spec to_datetime _
                (parseable_kept (λ m, sender m = s) d Hp))
      as (rows' & Hdf' & Hrows').
    rewrite tagged_kept in Hrows'.
    pose proof (rows_of_functional _ _ _ Hrows'
                  (rows_of_filter_sender s _ _ Hrows)) as ->.
    exists (pd_DataFrame (filter (sender_is s) rows)).
    split_and!; try done. simpl.
    apply Forall_forall. intros r [Hr _]%list_elem_of_filter.
    unfold sender_is in Hr.
    destruct (r !! "sender") as [[[]|]|]; try done.
    by apply bool_decide_unpack in Hr as ->.
Qed.
End sender_filter.

(** ** The loaders *)

Section loaders.
Implicit Types (fs : filesystem) (w : world) (d : RobotLearningDataset).
Implicit Types (e : manifest_entry) (entries : list manifest_entry).

Lemma exists_missing fs path : fs !! path = None → exists_ fs path = false.
Proof.
  intros Hn. unfold exists_. rewrite Hn. apply bool_decide_eq_false.
  by intros [? ?].
Qed.

Lemma exists_present fs path f : fs !! path = Some f → exists_ fs path = true.
Proof. intros Hf. unfold exists_. rewrite Hf. by apply bool_decide_eq_true. Qed.

Lemma load_session_missing fs self sid w d :
  heap w !! self = Some d →
  fs !! session_file d sid = None →
  load_session fs self sid w =
  (inl (FileNotFoundError
          ("Session export not found: " +:+ session_file d sid)), w).
Proof.
  intros Hd Hn. unfold load_session, bind, deref. rewrite Hd.
  by rewrite exists_missing.
Qed.

Lemma load_session_found fs self e s w d :
  heap w !! self = Some d →
  found fs d e = Some s →
  load_session fs self (entry_session_id e) w =
  (inr tt, mkWorld (<[self := extended d [s]]> (heap w)) (stdout w)).
Proof.
  intros Hd Hf. unfold found in Hf.
  destruct (fs !! session_file d (entry_session_id e)) as [[doc|]|] eqn:Hfs;
    try done.
  destruct (doc_data doc) as [data'|] eqn:Hdata; [|done].
  destruct (doc_info doc) as [info'|] eqn:Hinfo; [|done].
  injection Hf as <-.
  unfold load_session, bind at 1, deref. rewrite Hd.
  rewrite (exists_present _ _ _ Hfs). simpl.
  unfold bind at 1, json_load. rewrite Hfs. unfold ret at 1.
  rewrite Hdata, Hinfo. simpl. unfold bind, ret, sessions_append.
  by rewrite Hd.
Qed.

Lemma found_exports fs d d' e :
  exports_dir d' = exports_dir d → found fs d' e = found fs d e.
Proof. intros He. unfold found, session_file. by rewrite He. Qed.

Lemma missing_exports fs d d' e :
  exports_dir d' = exports_dir d → missing fs d' e ↔ missing fs d e.
Proof. intros He. unfold missing, session_file. by rewrite He. Qed.

Lemma missing_not_found fs d e : missing fs d e → found fs d e = None.
Proof. unfold missing, found. by intros ->. Qed.

Lemma found_not_missing fs d e : is_Some (found fs d e) → ¬ missing fs d e.
Proof. intros [s Hs] Hm. by rewrite (missing_not_found _ _ _ Hm) in Hs. Qed.

(** The manifest loop: found sessions are appended in manifest order, a
    warning is printed for each missing export, and the loop runs to its
    end. *)
Lemma manifest_loop_run fs self entries w d :
  heap w !! self = Some d →
  readable fs d entries →
  for_each entries (λ session,
    try_except_FileNotFoundError
      (load_session fs self (entry_session_id session))
      (print ("Warning: Could not load session "
              +:+ entry_session_id session))) w =
  (inr tt,
   mkWorld (<[self := extended d (omap (found fs d) entries)]> (heap w))
           (stdout w ++ (warning <$> filter (missing fs d) entries))).
Proof.
  intros Hd Hr. revert w d Hd Hr.
  induction entries as [|e entries IH]; intros w d Hd Hr.
  - simpl. unfold ret, extended. rewrite !app_nil_r. f_equal.
    rewrite insert_id; [by rewrite world_eta|]. by destruct d.
  - apply Forall_cons in Hr as [[Hm|[s Hs]] Hr].
    + cbn [for_each]. unfold bind, try_except_FileNotFoundError.
      rewrite (load_session_missing _ _ _ _ _ Hd Hm).
      unfold print at 1.
      rewrite (IH _ d) by done. simpl.
      rewrite (missing_not_found _ _ _ Hm).
      rewrite filter_cons_True by done.
      by rewrite fmap_cons, <-app_assoc.
    + cbn [for_each]. unfold bind, try_except_FileNotFoundError.
      rewrite (load_session_found _ _ _ _ _ _ Hd Hs).
      assert (exports_dir (extended d [s]) = exports_dir d) as Hx by done.
      rewrite (IH _ (extended d [s])); simpl.
      * rewrite Hs, insert_insert_eq.
        rewrite filter_cons_False
          by (apply found_not_missing; by rewrite Hs).
        rewrite (list_omap_ext _ (found fs d) _ entries)
          by (apply Forall2_same_length_lookup; split; [done|];
              intros i e1 e2 H1 H2; rewrite H1 in H2;
              injection H2 as <-; by apply found_exports).
        rewrite (list_filter_iff _ (missing fs d))
          by (intros e'; by apply missing_exports).
        unfold extended. simpl. by rewrite <-app_assoc.
      * apply lookup_insert_eq.
      * eapply Forall_impl; [done|]. intros e' He'. simpl in He'.
        by rewrite (missing_exports _ d), (found_exports _ d).
Qed.

Lemma readable_exports fs d d' entries :
  exports_dir d' = exports_dir d → readable fs d' entries → readable fs d entries.
Proof.
  intros Hx Hr. eapply Forall_impl; [exact Hr|]. intros e He. simpl in He.
  by rewrite <-(missing_exports _ d d'), <-(found_exports _ d d').
Qed.

(** The manifest loop runs to its end only when every listed export that
    exists is well formed: any other exception than [FileNotFoundError]
    leaves the loop. *)
Lemma manifest_loop_completes fs self entries w d w' :
  heap w !! self = Some d →
  for_each entries (λ session,
    try_except_FileNotFoundError
      (load_session fs self (entry_session_id session))
      (print ("Warning: Could not load session "
              +:+ entry_session_id session))) w = (inr tt, w') →
  readable fs d entries.
Proof.
  revert w d. induction entries as [|e entries IH]; intros w d Hd Hrun;
    [constructor|].
  cbn [for_each] in Hrun. unfold bind, try_except_FileNotFoundError in Hrun.
  destruct (found fs d e) as [s|] eqn:Hf.
  - rewrite (load_session_found _ _ _ _ _ _ Hd Hf) in Hrun.
    constructor; [right; by rewrite Hf|].
    apply (readable_exports fs d (extended d [s])); [done|].
    eapply IH; [|exact Hrun]. apply lookup_insert_eq.
  - destruct (fs !! session_file d (entry_session_id e)) as [[doc|]|] eqn:Hfs.
    + exfalso. unfold found in Hf. rewrite Hfs in Hf.
      unfold load_session, bind, deref, json_load in Hrun.
      rewrite Hd, (exists_present _ _ _ Hfs), Hfs in Hrun. simpl in Hrun.
      destruct (doc_data doc), (doc_info doc); simpl in *; done.
    + exfalso. unfold load_session, bind, deref, json_load in Hrun.
      rewrite Hd, (exists_present _ _ _ Hfs), Hfs in Hrun. by simpl in Hrun.
    + rewrite (load_session_missing _ _ _ _ _ Hd Hfs) in Hrun.
      constructor; [by left|]. eapply IH; [|exact Hrun]. done.
Qed.

(** C7. When the export of a session does not exist, that is the file
    [exports_dir / f'{session_id}_huggingface.json'] as [pathlib] reads that
    path, [load_session] raises [FileNotFoundError] with a message that
    ends in that path, and the world it returns is the one it was called
    in: the sessions of the instance are unchanged. *)
Theorem load_session_not_found fs self sid w d :
  heap w !! self = Some d →
  fs !! session_file d sid = None →
  ∃ w',
    load_session fs self sid w =
    (inl (FileNotFoundError
            ("Session export not found: " +:+ session_file d sid)), w') ∧
    w' = w ∧ heap w' !! self = Some d.
Proof.
  intros Hd Hn. exists w. split; [|done].
  unfold load_session, bind, deref. rewrite Hd.
  by rewrite (exists_missing fs (session_file d sid) Hn).
Qed.

(** C6. [load_from_manifest] raises [FileNotFoundError] and changes
    nothing when the manifest does not exist. When the manifest lists
    [entries], the call returns normally if every listed export that
    exists is well formed (a missing export does not stop it), and whenever
    it returns normally the instance holds its previous sessions followed by
    exactly the sessions that were found, in manifest order with the missing
    ones skipped; one warning was printed per missing export, in manifest
    order; and no other object changed. *)
Theorem load_from_manifest_spec fs self w d :
  heap w !! self = Some d →
  (fs !! manifest_file d = None →
   load_from_manifest fs self w =
   (inl (FileNotFoundError
           ("Dataset manifest not found: " +:+ manifest_file d)), w)) ∧
  (∀ doc entries,
     fs !! manifest_file d = Some (Some doc) →
     doc_sessions doc = Some entries →
     (readable fs d entries →
      ∃ w', load_from_manifest fs self w = (inr tt, w')) ∧
     (∀ w',
        load_from_manifest fs self w = (inr tt, w') →
        readable fs d entries ∧
        heap w' !! self = Some (extended d (omap (found fs d) entries)) ∧
        (∀ l, l ≠ self → heap w' !! l = heap w !! l) ∧
        stdout w' =
          stdout w ++ (warning <$> filter (missing fs d) entries))).
Proof.
  intros Hd. split.
  - intros Hn. unfold load_from_manifest, bind, deref. rewrite Hd.
    by rewrite exists_missing.
  - intros doc entries Hm Hs.
    assert (load_from_manifest fs self w =
            for_each entries (λ session,
              try_except_FileNotFoundError
                (load_session fs self (entry_session_id session))
                (print ("Warning: Could not load session "
                        +:+ entry_session_id session))) w) as ->.
    { unfold load_from_manifest, bind at 1, deref. rewrite Hd.
      rewrite (exists_present _ _ _ Hm). simpl.
      unfold bind at 1, json_load. rewrite Hm. unfold ret at 1.
      rewrite Hs. simpl. by unfold bind at 1, ret at 1. }
    split.
    + intros Hr. eexists. by apply manifest_loop_run.
    + intros w' Hrun.
      pose proof (manifest_loop_completes _ _ _ _ _ _ Hd Hrun) as Hr.
      rewrite (manifest_loop_run _ _ _ _ _ Hd Hr) in Hrun.
      injection Hrun as <-. simpl.
      split_and!; [done|apply lookup_insert_eq| |done].
      intros l Hl. by rewrite lookup_insert_ne.
Qed.
End loaders.

(** ** The examples, run *)

Section examples.
Import Examples.

Lemma from_manifest_example :
  ∃ w, from_manifest disk "../data" (mkWorld ∅ []) = (inr 1%positive, w) ∧
       heap w !! 1%positive = Some (collection [s1; s3]) ∧
       stdout w = ["Warning: Could not load session s2"].
Proof. eexists. split; [vm_compute; reflexivity|]. by vm_compute. Qed.

Lemma plain_carries_nothing t : ¬ carries t plain.
Proof. intros (l & Hl & _). by apply elem_of_nil in Hl. Qed.

Lemma relabelled_no_count : ¬ carries "count" relabelled.
Proof.
  intros (l & Hl & Ht).
  repeat (apply elem_of_cons in Hl as [->|Hl]; [discriminate Ht|]).
  by apply elem_of_nil in Hl.
Qed.

Lemma readable_disk : readable disk (collection []) entries.
Proof.
  unfold readable, entries.
  apply Forall_cons; split; [right; vm_compute; by eexists|].
  apply Forall_cons; split; [left; reflexivity|].
  apply Forall_cons; split; [right; vm_compute; by eexists|constructor].
Qed.

Lemma to_dataframe_frame ss :
  parseable to_datetime (collection ss) →
  to_dataframe to_datetime (collection ss) = inr (frame ss).
Proof.
  intros Hall.
  destruct (to_dataframe_spec to_datetime _ Hall) as (rows & Hdf & Hrows).
  rewrite Hdf. unfold frame. do 2 f_equal. clear Hdf.
  induction Hrows as [|sm r sms rows (ts & Hts & ->) _ IH]; [done|].
  rewrite fmap_cons, IH. by rewrite Hts.
Qed.

(** Three messages in two sessions give three rows. *)
Lemma to_dataframe_one_row_per_message_witness :
  to_dataframe to_datetime (collection [s1; s3]) = inr (frame [s1; s3]) ∧
  length (records (frame [s1; s3])) = 3.
Proof.
  assert (to_dataframe to_datetime (collection [s1; s3])
          = inr (frame [s1; s3])) as Hdf by reflexivity.
  split; [exact Hdf|].
  destruct (to_dataframe_one_row_per_message to_datetime (collection [s1; s3]))
    as [_ Hrows].
  destruct (Hrows _ Hdf) as (Hlen & _). exact Hlen.
Defined.

(** The scenario of the statistics: one session, two messages, one
    label. *)
Lemma get_statistics_spec_witness :
  sessions (collection [s1]) = [mkSession "s1" [labelled; plain] (JObj [])] ∧
  length (get_labels labelled) + length (get_labels plain) = 1 ∧
  total_messages (get_statistics (collection [s1])) = 2 ∧
  total_labels (get_statistics (collection [s1])) = 1 ∧
  avg_labels_per_message (get_statistics (collection [s1]))
    = Float (binary64 (2 ^ 52) (-53)).
Proof.
  split; [reflexivity|]. split; [reflexivity|].
  destruct (get_statistics_spec (collection [s1]))
    as (_ & _ & _ & _ & _ & _ & _ & Hscenario).
  exact (Hscenario "s1" (JObj []) labelled plain eq_refl eq_refl).
Defined.

(** Filtering the two sessions by the sender ["robot"] keeps one
    session with one message. *)
Lemma filter_by_sender_spec_witness :
  heap (holding [s1; s3]) !! 1%positive = Some (collection [s1; s3]) ∧
  ∃ r w' d',
    filter_by_sender 1%positive "robot" (holding [s1; s3]) = (inr r, w') ∧
    heap w' !! r = Some d' ∧
    sessions d' = [mkSession "s1" [plain] (JObj [])].
Proof.
  split; [reflexivity|].
  destruct (filter_by_sender_spec to_datetime 1%positive "robot"
              (holding [s1; s3]) (collection [s1; s3]) eq_refl)
    as (r & w' & d' & Hrun & _ & Hr & Hs & _).
  exists r, w', d'. split; [exact Hrun|]. split; [exact Hr|exact Hs].
Defined.

(** Filtering by the label type ["quality"] drops the message without
    labels. *)
Lemma filter_by_labels_spec_witness :
  heap (holding [s1; s3]) !! 1%positive = Some (collection [s1; s3]) ∧
  ∃ r w' d',
    filter_by_labels 1%positive (Some "quality") (holding [s1; s3])
      = (inr r, w') ∧
    heap w' !! r = Some d' ∧
    sessions d' = [mkSession "s1" [labelled] (JObj []); s3].
Proof.
  split; [reflexivity|].
  destruct (filter_by_labels_spec 1%positive (Some "quality")
              (holding [s1; s3]) (collection [s1; s3]) eq_refl)
    as (r & w' & d' & Hrun & _ & Hr & Hs & _).
  exists r, w', d'. split; [exact Hrun|]. split; [exact Hr|exact Hs].
Defined.

Lemma filters_leave_original_witness :
  heap (holding [s1; s3]) !! 1%positive = Some (collection [s1; s3]) ∧
  ∃ r w',
    filter_by_sender 1%positive "robot" (holding [s1; s3]) = (inr r, w') ∧
    heap w' !! 1%positive = Some (collection [s1; s3]).
Proof.
  split; [reflexivity|].
  destruct (filters_leave_original 1%positive (holding [s1; s3])
              (collection [s1; s3]) eq_refl) as [Hsender _].
  destruct (Hsender "robot") as (r & w' & Hrun & _ & _ & Hself & _).
  exists r, w'. split; [exact Hrun|exact Hself].
Defined.

(** The manifest lists [s1], [s2] and [s3]; the export of [s2] is not
    on the disk. *)
Lemma load_from_manifest_spec_witness :
  heap (holding []) !! 1%positive = Some (collection []) ∧
  disk !! manifest_file (collection []) =
    Some (Some (mkDocument None None (Some entries))) ∧
  readable disk (collection []) entries ∧
  ∃ w',
    load_from_manifest disk 1%positive (holding []) = (inr tt, w') ∧
    heap w' !! 1%positive = Some (collection [s1; s3]) ∧
    stdout w' = ["Warning: Could not load session s2"].
Proof.
  split; [reflexivity|]. split; [reflexivity|].
  split; [exact readable_disk|].
  destruct (load_from_manifest_spec disk 1%positive (holding [])
              (collection []) eq_refl) as [_ Hload].
  destruct (Hload _ entries eq_refl eq_refl) as [Hcompletes Hresult].
  destruct (Hcompletes readable_disk) as [w' Hrun].
  destruct (Hresult w' Hrun) as (_ & Hself & _ & Hout).
  exists w'. split; [exact Hrun|]. split; [exact Hself|exact Hout].
Defined.

Lemma load_session_not_found_witness :
  heap (holding [s1]) !! 1%positive = Some (collection [s1]) ∧
  disk !! session_file (collection [s1]) "s2" = None ∧
  ∃ w',
    load_session disk 1%positive "s2" (holding [s1]) =
    (inl (FileNotFoundError
            "Session export not found: ../data/exports/s2_huggingface.json"),
     w') ∧
    heap w' !! 1%positive = Some (collection [s1]).
Proof.
  split; [reflexivity|]. split; [reflexivity|].
  destruct (load_session_not_found disk 1%positive "s2" (holding [s1])
              (collection [s1]) eq_refl eq_refl) as (w' & Hrun & _ & Hself).
  exists w'. split; [exact Hrun|exact Hself].
Defined.

Lemma label_columns_populated_witness :
  to_dataframe to_datetime (collection [s1; s3]) = inr (frame [s1; s3]) ∧
  "quality" ≠ "count" ∧
  label_column_exact (collection [s1; s3]) (frame [s1; s3]) "quality" ∧
  cell (frame [s1; s3]) 2 "label_quality" = Some (Json (JStr "bad")).
Proof.
  assert (to_dataframe to_datetime (collection [s1; s3])
          = inr (frame [s1; s3])) as Hdf by reflexivity.
  assert ("quality" ≠ "count") as Hne by discriminate.
  split; [exact Hdf|]. split; [exact Hne|].
  destruct (label_columns_populated to_datetime _ _ _ Hdf Hne)
    as (Hexact & _ & Hlast).
  split; [exact Hexact|].
  exact (Hlast 2 ("s3", relabelled) eq_refl).
Defined.

(** C8. The code does not give the label type ["count"] the column the
    specification describes.  Session [s4] holds a message with one label
    of type ["count"], of data 7, and a message with no label.  The type is
    observed, and the column named for it, [label_count], is the column
    line 104 fills with the number of labels.  On the row of the message
    without a label the column holds that number, 0, where it should be
    null; on the row of the message with the label, the assignment of
    line 110 has replaced the number, 1, by the data 7.  So [label_count]
    is not the column of the label type, whichever label of a message is
    taken to be the one whose data the column holds. *)
Theorem label_count_column_collision :
  to_dataframe to_datetime (collection [s4]) = inr (frame [s4]) ∧
  observed "count" (collection [s4]) ∧
  label_column "count" = "label_count" ∧
  tagged_messages (collection [s4]) = [("s4", counted); ("s4", plain)] ∧
  get_labels counted = [mkLabel "count" (JNum 7)] ∧
  ¬ carries "count" plain ∧
  cell (frame [s4]) 0 "label_count" = Some (Json (JNum 7)) ∧
  cell (frame [s4]) 1 "label_count" = Some (Json (JNum 0)) ∧
  ¬ label_column_exact (collection [s4]) (frame [s4]) "count".
Proof.
  split; [reflexivity|]. split.
  { exists ("s4", counted). split; [left|].
    exists (mkLabel "count" (JNum 7)). split; [left|done]. }
  split; [reflexivity|]. split; [reflexivity|]. split; [reflexivity|].
  split; [apply plain_carries_nothing|].
  split; [reflexivity|]. split; [reflexivity|].
  intros [_ Hrows].
  destruct (Hrows 1 ("s4", plain) eq_refl) as [_ Hnull].
  specialize (Hnull (plain_carries_nothing "count")).
  vm_compute in Hnull. discriminate Hnull.
Qed.

(** Two labels of type [quality]: the last one is in the row, and
    [label_count] is 2. *)
Lemma repeated_type_last_wins_witness :
  to_dataframe to_datetime (collection [s3]) = inr (frame [s3]) ∧
  tagged_messages (collection [s3]) !! 0 = Some ("s3", relabelled) ∧
  repeated "quality" relabelled ∧
  cell (frame [s3]) 0 "label_quality" = Some (Json (JStr "bad")) ∧
  cell (frame [s3]) 0 "label_count" = Some (Json (JNum 2)).
Proof.
  assert (to_dataframe to_datetime (collection [s3]) = inr (frame [s3]))
    as Hdf by reflexivity.
  assert (repeated "quality" relabelled) as Hrep
    by (vm_compute; constructor).
  split; [exact Hdf|]. split; [reflexivity|]. split; [exact Hrep|].
  destruct (repeated_type_last_wins to_datetime _ _ Hdf
              0 ("s3", relabelled) "quality" eq_refl Hrep)
    as (Hlast & _ & Hcount).
  split; [exact Hlast|exact (Hcount relabelled_no_count)].
Defined.

(** C10. The code loses the label count when the repeated label type is
    ["count"].  Session [s5] holds one message with two labels of type
    ["count"], of data 7 and 8.  The message has two labels, and line 104
    stores that number under the key [label_count]; the loop of lines 107
    to 110 then assigns the data of each label to the same key.  The row
    ends with the data of the last label, 8, in [label_count]: the last
    label wins, as specified, but [label_count] does not count the labels
    of the message, which are 2. *)
Theorem label_count_overwritten :
  to_dataframe to_datetime (collection [s5]) = inr (frame [s5]) ∧
  tagged_messages (collection [s5]) = [("s5", recounted)] ∧
  get_labels recounted = [mkLabel "count" (JNum 7); mkLabel "count" (JNum 8)] ∧
  repeated "count" recounted ∧
  last_label_wins (frame [s5]) 0 recounted "count" ∧
  cell (frame [s5]) 0 "label_count" = Some (Json (JNum 8)) ∧
  ¬ label_count_counts (frame [s5]) 0 recounted ∧
  ¬ repeated_type_rows (collection [s5]) (frame [s5]).
Proof.
  assert (repeated "count" recounted) as Hrep by (vm_compute; constructor).
  assert (¬ label_count_counts (frame [s5]) 0 recounted) as Hcount
    by (intros H; vm_compute in H; discriminate H).
  split; [reflexivity|]. split; [reflexivity|]. split; [reflexivity|].
  split; [exact Hrep|]. split; [reflexivity|]. split; [reflexivity|].
  split; [exact Hcount|].
  intros Hrows. apply Hcount.
  by destruct (Hrows 0 ("s5", recounted) "count" eq_refl Hrep) as [_ ?].
Qed.
End examples.


(** * Further properties of the loaders *)

Section loading.
Implicit Types (fs : filesystem) (w : world) (d : RobotLearningDataset).
Implicit Types (e : manifest_entry) (entries : list manifest_entry).

Lemma found_export fs d sid doc data' info' :
  fs !! session_file d sid = Some (Some doc) →
  doc_data doc = Some data' → doc_info doc = Some info' →
  found fs d (mkEntry sid) = Some (mkSession sid data' info').
Proof. intros Hfs Hd Hi. unfold found. simpl. by rewrite Hfs, Hd, Hi. Qed.

(** X1. A well-formed export is appended: [load_session] returns
    normally, the instance holds its previous sessions followed by one new
    session made of the given id and the [data] and [info] of the file, and
    nothing else changes. *)
Theorem load_session_appends fs self sid w d doc data' info' :
  heap w !! self = Some d →
  fs !! session_file d sid = Some (Some doc) →
  doc_data doc = Some data' → doc_info doc = Some info' →
  ∃ w', load_session fs self sid w = (inr tt, w') ∧
        heap w' !! self = Some (extended d [mkSession sid data' info']) ∧
        (∀ l, l ≠ self → heap w' !! l = heap w !! l) ∧
        stdout w' = stdout w.
Proof.
  intros Hd Hfs Hdata Hinfo.
  pose proof (load_session_found fs self (mkEntry sid) _ w d Hd
                (found_export _ _ _ _ _ _ Hfs Hdata Hinfo)) as Hrun.
  simpl in Hrun. eexists. split; [exact Hrun|]. simpl.
  split_and!; [apply lookup_insert_eq| |done].
  intros l Hl. by rewrite lookup_insert_ne.
Qed.

(** X2. An export that exists but is malformed makes [load_session] raise
    and change nothing: [JSONDecodeError] when the file is not JSON,
    [KeyError] for [data] when that key is missing (whether or not [info]
    is there), [KeyError] for [info] when only that key is missing. *)
Theorem load_session_malformed fs self sid w d :
  heap w !! self = Some d →
  (fs !! session_file d sid = Some None →
   load_session fs self sid w = (inl JSONDecodeError, w)) ∧
  (∀ doc, fs !! session_file d sid = Some (Some doc) →
     doc_data doc = None →
     load_session fs self sid w = (inl (KeyError "data"), w)) ∧
  (∀ doc, fs !! session_file d sid = Some (Some doc) →
     is_Some (doc_data doc) → doc_info doc = None →
     load_session fs self sid w = (inl (KeyError "info"), w)).
Proof.
  intros Hd. split_and!.
  - intros Hfs. unfold load_session, bind, deref, json_load.
    by rewrite Hd, (exists_present _ _ _ Hfs), Hfs.
  - intros doc Hfs Hdata. unfold load_session, bind, deref, json_load.
    rewrite Hd, (exists_present _ _ _ Hfs), Hfs. simpl. by rewrite Hdata.
  - intros doc Hfs [data' Hdata] Hinfo.
    unfold load_session, bind, deref, json_load.
    rewrite Hd, (exists_present _ _ _ Hfs), Hfs. simpl.
    by rewrite Hdata, Hinfo.
Qed.

(** X3. Loading is append-only, with no check for an id that is already
    held: two loads of the same export in a row leave the instance with two
    equal sessions at the end. *)
Theorem load_session_twice fs self sid w d doc data' info' :
  heap w !! self = Some d →
  fs !! session_file d sid = Some (Some doc) →
  doc_data doc = Some data' → doc_info doc = Some info' →
  ∃ w', bind (load_session fs self sid)
             (λ _, load_session fs self sid) w = (inr tt, w') ∧
        heap w' !! self =
          Some (extended d [mkSession sid data' info';
                            mkSession sid data' info']).
Proof.
  intros Hd Hfs Hdata Hinfo.
  pose proof (found_export _ _ _ _ _ _ Hfs Hdata Hinfo) as Hf.
  unfold bind.
  rewrite (load_session_found fs self (mkEntry sid) _ w d Hd Hf : load_session fs self sid w = _).
  assert (found fs (extended d [mkSession sid data' info']) (mkEntry sid)
          = Some (mkSession sid data' info')) as Hf'
    by (by rewrite (found_exports _ d)).
  rewrite (load_session_found fs self (mkEntry sid) _ _ _
             (lookup_insert_eq _ _ _) Hf' : load_session fs self sid _ = _).
  eexists. split; [done|]. simpl. rewrite lookup_insert_eq.
  unfold extended. simpl. by rewrite <-app_assoc.
Qed.
Lemma for_each_app {A} (xs ys : list A) (body : A → M unit) w :
  for_each (xs ++ ys) body w =
  match for_each xs body w with
  | (inr _, w1) => for_each ys body w1
  | (inl x, w1) => (inl x, w1)
  end.
Proof.
  revert w. induction xs as [|x xs IH]; intros w; [done|].
  simpl. unfold bind. destruct (body x w) as [[x'|[]] w1]; [done|]. apply IH.
Qed.

Lemma load_from_manifest_loop fs self w d doc entries :
  heap w !! self = Some d →
  fs !! manifest_file d = Some (Some doc) →
  doc_sessions doc = Some entries →
  load_from_manifest fs self w =
  for_each entries (λ session,
    try_except_FileNotFoundError
      (load_session fs self (entry_session_id session))
      (print ("Warning: Could not load session "
              +:+ entry_session_id session))) w.
Proof.
  intros Hd Hm Hs. unfold load_from_manifest, bind at 1, deref. rewrite Hd.
  rewrite (exists_present _ _ _ Hm). simpl.
  unfold bind at 1, json_load. rewrite Hm. unfold ret at 1.
  rewrite Hs. simpl. by unfold bind at 1, ret at 1.
Qed.

(** An export that exists and does not resolve makes [load_session] raise
    something else than [FileNotFoundError], with the world unchanged. *)
Lemma load_session_unreadable fs self e w d :
  heap w !! self = Some d →
  is_Some (fs !! session_file d (entry_session_id e)) →
  found fs d e = None →
  ∃ x, load_session fs self (entry_session_id e) w = (inl x, w) ∧
       (x = JSONDecodeError ∨ ∃ key, x = KeyError key).
Proof.
  intros Hd [f Hfs] Hf. unfold found in Hf. rewrite Hfs in Hf.
  unfold load_session, bind, deref, json_load.
  rewrite Hd, (exists_present _ _ _ Hfs), Hfs.
  destruct f as [doc|]; [|exists JSONDecodeError; split; [done|by left]].
  simpl. destruct (doc_data doc) as [data'|].
  - destruct (doc_info doc) as [info'|]; [done|].
    exists (KeyError "info"). split; [done|right; by eexists].
  - exists (KeyError "data"). split; [done|right; by eexists].
Qed.

(** X4. A malformed export stops the batch: when every entry before [e]
    is missing or well formed and the export of [e] exists but is malformed,
    [load_from_manifest] raises a [JSONDecodeError] or [KeyError]; the
    sessions found before [e] stay loaded, the warnings for the missing ones
    before [e] stay printed, and no entry after [e] is looked at. *)
Theorem load_from_manifest_aborts fs self w d doc pre e post :
  heap w !! self = Some d →
  fs !! manifest_file d = Some (Some doc) →
  doc_sessions doc = Some (pre ++ e :: post) →
  readable fs d pre →
  is_Some (fs !! session_file d (entry_session_id e)) →
  found fs d e = None →
  ∃ x w',
    load_from_manifest fs self w = (inl x, w') ∧
    (x = JSONDecodeError ∨ ∃ key, x = KeyError key) ∧
    heap w' !! self = Some (extended d (omap (found fs d) pre)) ∧
    (∀ l, l ≠ self → heap w' !! l = heap w !! l) ∧
    stdout w' = stdout w ++ (warning <$> filter (missing fs d) pre).
Proof.
  intros Hd Hm Hs Hpre Hex Hf.
  rewrite (load_from_manifest_loop _ _ _ _ _ _ Hd Hm Hs), for_each_app.
  rewrite (manifest_loop_run _ _ _ _ _ Hd Hpre).
  set (d1 := extended d (omap (found fs d) pre)).
  set (w1 := mkWorld _ _).
  assert (heap w1 !! self = Some d1) as Hd1 by apply lookup_insert_eq.
  destruct (load_session_unreadable fs self e w1 d1 Hd1) as (x & Hrun & Hx).
  { done. }
  { by rewrite (found_exports _ d). }
  exists x, w1. cbn [for_each]. unfold bind, try_except_FileNotFoundError.
  rewrite Hrun. split.
  - by destruct Hx as [->|[key ->]].
  - split; [done|]. split; [done|]. split; [|done].
    intros l Hl. subst w1. simpl. by rewrite lookup_insert_ne.
Qed.

(** X5. A manifest that exists but is malformed makes
    [load_from_manifest] raise and change nothing: [JSONDecodeError] when
    it is not JSON, [KeyError] for [sessions] when that key is missing. *)
Theorem load_from_manifest_malformed fs self w d :
  heap w !! self = Some d →
  (fs !! manifest_file d = Some None →
   load_from_manifest fs self w = (inl JSONDecodeError, w)) ∧
  (∀ doc, fs !! manifest_file d = Some (Some doc) →
     doc_sessions doc = None →
     load_from_manifest fs self w = (inl (KeyError "sessions"), w)).
Proof.
  intros Hd. split.
  - intros Hm. unfold load_from_manifest, bind, deref, json_load.
    by rewrite Hd, (exists_present _ _ _ Hm), Hm.
  - intros doc Hm Hs. unfold load_from_manifest, bind, deref, json_load.
    rewrite Hd, (exists_present _ _ _ Hm), Hm. simpl. by rewrite Hs.
Qed.

Lemma readable_accounted fs d entries :
  readable fs d entries →
  length (omap (found fs d) entries) + length (filter (missing fs d) entries)
  = length entries.
Proof.
  induction 1 as [|e entries [Hm|[s Hs]] _ IH]; [done| |].
  - csimpl. rewrite (missing_not_found _ _ _ Hm).
    rewrite filter_cons_True by done. csimpl. lia.
  - csimpl. rewrite Hs.
    rewrite filter_cons_False by (apply found_not_missing; by rewrite Hs).
    csimpl. lia.
Qed.

(** X6. Every entry of the manifest is accounted for: when
    [load_from_manifest] returns normally, the number of sessions it added
    and the number of lines it printed add up to the number of entries. *)
Theorem load_from_manifest_accounts fs self w d doc entries w' d' :
  heap w !! self = Some d →
  fs !! manifest_file d = Some (Some doc) →
  doc_sessions doc = Some entries →
  load_from_manifest fs self w = (inr tt, w') →
  heap w' !! self = Some d' →
  (length (sessions d') - length (sessions d)) +
  (length (stdout w') - length (stdout w)) = length entries ∧
  (length (sessions d) ≤ length (sessions d'))%nat ∧
  (length (stdout w) ≤ length (stdout w'))%nat.
Proof.
  intros Hd Hm Hs Hrun Hd'.
  rewrite (load_from_manifest_loop _ _ _ _ _ _ Hd Hm Hs) in Hrun.
  pose proof (manifest_loop_completes _ _ _ _ _ _ Hd Hrun) as Hr.
  rewrite (manifest_loop_run _ _ _ _ _ Hd Hr) in Hrun.
  injection Hrun as <-. simpl in Hd'. rewrite lookup_insert_eq in Hd'.
  injection Hd' as <-. simpl.
  rewrite !length_app, length_fmap.
  pose proof (readable_accounted _ _ _ Hr). lia.
Qed.

(** The instance [RobotLearningDataset(data_dir)] starts as. *)
Lemma init_run data_dir' w :
  __init__ data_dir' w =
  (inr (fresh (dom (heap w))),
   mkWorld (<[fresh (dom (heap w)) :=
                mkDataset data_dir' (path_join data_dir' "exports") []]>
              (heap w)) (stdout w)).
Proof. done. Qed.

(** X7. [from_session] allocates a new instance whose exports directory
    is [Path(data_dir) / 'exports']. For a well-formed export it returns
    that instance, holding exactly the one session of the export; when the
    export [exports_dir / f'{session_id}_huggingface.json'] does not exist
    it raises [FileNotFoundError] with a message that ends in that path.
    In both cases every existing instance is as it was. *)
Theorem from_session_spec fs sid data_dir' w :
  let r := fresh (dom (heap w)) in
  let d0 := mkDataset data_dir' (path_join data_dir' "exports") [] in
  (fs !! session_file d0 sid = None →
   ∃ w', from_session fs sid data_dir' w =
         (inl (FileNotFoundError
                 ("Session export not found: " +:+ session_file d0 sid)),
          w') ∧
         (∀ l, l ≠ r → heap w' !! l = heap w !! l) ∧ stdout w' = stdout w) ∧
  (∀ doc data' info',
     fs !! session_file d0 sid = Some (Some doc) →
     doc_data doc = Some data' → doc_info doc = Some info' →
     ∃ w', from_session fs sid data_dir' w = (inr r, w') ∧
           heap w !! r = None ∧
           heap w' !! r = Some (extended d0 [mkSession sid data' info']) ∧
           (∀ l, l ≠ r → heap w' !! l = heap w !! l) ∧ stdout w' = stdout w).
Proof.
  intros r d0.
  set (w0 := mkWorld (<[r := d0]> (heap w)) (stdout w)).
  assert (heap w0 !! r = Some d0) as Hd0 by apply lookup_insert_eq.
  split.
  - intros Hn. exists w0.
    unfold from_session, bind. rewrite init_run. fold r d0 w0.
    rewrite (load_session_missing _ _ _ _ _ Hd0 Hn).
    split; [done|]. split; [|done].
    intros l Hl. subst w0. simpl. by rewrite lookup_insert_ne.
  - intros doc data' info' Hfs Hdata Hinfo.
    pose proof (load_session_found fs r (mkEntry sid) _ w0 d0 Hd0
                  (found_export _ _ _ _ _ _ Hfs Hdata Hinfo)) as Hrun.
    simpl in Hrun. eexists.
    unfold from_session, bind. rewrite init_run. fold r d0 w0.
    rewrite Hrun. split; [done|]. simpl.
    split; [apply fresh_unallocated|].
    split; [by rewrite lookup_insert_eq|]. split; [|done].
    intros l Hl. by rewrite !lookup_insert_ne.
Qed.

Lemma found_session_id fs d e s :
  found fs d e = Some s → session_id s = entry_session_id e.
Proof.
  unfold found. intros Hf.
  destruct (fs !! _) as [[doc|]|]; try done.
  destruct (doc_data doc), (doc_info doc); try done. by injection Hf as <-.
Qed.

Lemma found_session_ids fs d entries :
  session_id <$> omap (found fs d) entries =
  entry_session_id <$> filter (λ e, is_Some (found fs d e)) entries.
Proof.
  induction entries as [|e entries IH]; [done|].
  csimpl. rewrite filter_cons.
  destruct (found fs d e) as [s|] eqn:Hf.
  - rewrite decide_True by done. csimpl.
    by rewrite IH, (found_session_id _ _ _ _ Hf).
  - by rewrite decide_False by (by intros [? ?]).
Qed.

(** X8. [from_manifest] allocates a new instance whose exports directory
    is [Path(data_dir) / 'exports']. When every listed export that exists
    is well formed, it returns that instance, holding exactly the sessions
    that were found, in the order of the manifest and each under the id of
    its entry; one warning was printed per missing export, and every
    existing instance is as it was. When the manifest
    [exports_dir / 'dataset_manifest.json'] does not exist the call raises
    [FileNotFoundError] with a message that ends in that path. *)
Theorem from_manifest_spec fs data_dir' w :
  let r := fresh (dom (heap w)) in
  let d0 := mkDataset data_dir' (path_join data_dir' "exports") [] in
  (fs !! manifest_file d0 = None →
   ∃ w', from_manifest fs data_dir' w =
         (inl (FileNotFoundError
                 ("Dataset manifest not found: " +:+ manifest_file d0)),
          w') ∧
         (∀ l, l ≠ r → heap w' !! l = heap w !! l) ∧ stdout w' = stdout w) ∧
  (∀ doc entries,
     fs !! manifest_file d0 = Some (Some doc) →
     doc_sessions doc = Some entries →
     readable fs d0 entries →
     ∃ w' d',
       from_manifest fs data_dir' w = (inr r, w') ∧
       heap w !! r = None ∧ heap w' !! r = Some d' ∧
       d' = extended d0 (omap (found fs d0) entries) ∧
       session_id <$> sessions d' =
         entry_session_id <$> filter (λ e, is_Some (found fs d0 e)) entries ∧
       (∀ l, l ≠ r → heap w' !! l = heap w !! l) ∧
       stdout w' = stdout w ++ (warning <$> filter (missing fs d0) entries)).
Proof.
  intros r d0.
  set (w0 := mkWorld (<[r := d0]> (heap w)) (stdout w)).
  assert (heap w0 !! r = Some d0) as Hd0 by apply lookup_insert_eq.
  assert (__init__ data_dir' w = (inr r, w0)) as Hinit by done.
  split.
  - intros Hn. exists w0. unfold from_manifest, bind. rewrite Hinit.
    unfold load_from_manifest, bind, deref. rewrite Hd0.
    rewrite (exists_missing fs (manifest_file d0)) by done.
    split; [done|]. split; [|done].
    intros l Hl. subst w0. simpl. by rewrite lookup_insert_ne.
  - intros doc entries Hm Hs Hr.
    eexists _, _. unfold from_manifest, bind. rewrite Hinit.
    rewrite (load_from_manifest_loop fs r w0 d0 doc entries Hd0 Hm Hs).
    rewrite (manifest_loop_run _ _ _ _ _ Hd0 Hr). simpl.
    split; [done|]. split; [apply fresh_unallocated|].
    split; [apply lookup_insert_eq|]. simpl.
    split; [done|]. split; [apply found_session_ids|]. split; [|done].
    intros l Hl. by rewrite !lookup_insert_ne.
Qed.
End loading.

(** * Further properties of the projection *)

Section projecting.
Context {Timestamp : Type}.
Variable to_datetime : string → option Timestamp.
Local Abbreviation row := (gmap string (pyval Timestamp)).

Lemma rows_of_ids sms (rows : list row) :
  rows_of to_datetime sms rows →
  (λ r : row, (r !! "session_id", r !! "message_id")) <$> rows =
  (λ sm, (Some (Json (JStr sm.1)), Some (Json (msg_id sm.2)))) <$> sms.
Proof.
  induction 1 as [|sm r sms rows (ts & _ & ->) _ IH]; [done|].
  rewrite !fmap_cons, row_of_session_id, row_of_message_id. by f_equal.
Qed.

(** X9. Round trip of one export: when the export that [from_session]
    reads, [exports_dir / f'{session_id}_huggingface.json'] of the new
    instance, is well formed and its timestamps parse, the instance
    [from_session] returns projects to one row per message of the file, in
    file order, each with the session id that was asked for. *)
Theorem from_session_to_dataframe fs sid data_dir' w doc data' info' :
  fs !! session_file
          (mkDataset data_dir' (path_join data_dir' "exports") []) sid
    = Some (Some doc) →
  doc_data doc = Some data' → doc_info doc = Some info' →
  Forall (λ m, is_Some (to_datetime (timestamp m))) data' →
  ∃ r w' d' df,
    from_session fs sid data_dir' w = (inr r, w') ∧
    heap w' !! r = Some d' ∧
    to_dataframe to_datetime d' = inr df ∧
    length (records df) = length data' ∧
    (λ r : row, (r !! "session_id", r !! "message_id")) <$> records df =
    (λ m, (Some (Json (JStr sid)), Some (Json (msg_id m)))) <$> data'.
Proof.
  intros Hfs Hdata Hinfo Hparse.
  set (d0 := mkDataset data_dir' (path_join data_dir' "exports") []) in *.
  set (r := fresh (dom (heap w))).
  set (w0 := mkWorld (<[r := d0]> (heap w)) (stdout w)).
  assert (heap w0 !! r = Some d0) as Hd0 by apply lookup_insert_eq.
  pose proof (load_session_found fs r (mkEntry sid) _ w0 d0 Hd0
                (found_export fs d0 sid doc data' info' Hfs Hdata Hinfo))
    as Hrun. simpl in Hrun.
  set (d' := extended d0 [mkSession sid data' info']) in *.
  assert (parseable to_datetime d') as Hp.
  { unfold parseable, all_messages. simpl. by rewrite app_nil_r. }
  destruct (to_dataframe_spec to_datetime d' Hp) as (rows & Hdf & Hrows).
  eexists r, _, d', (pd_DataFrame rows).
  split; [unfold from_session, bind; rewrite init_run; fold r d0 w0;
          by rewrite Hrun|].
  split; [apply lookup_insert_eq|]. split; [done|]. simpl.
  unfold tagged_messages in Hrows. simpl in Hrows. rewrite app_nil_r in Hrows.
  split.
  - apply Forall2_length in Hrows. by rewrite length_fmap in Hrows.
  - rewrite (rows_of_ids _ _ Hrows), <-list_fmap_compose. done.
Qed.

(** X10. The columns of a frame [to_dataframe] returns: none at all when
    the collection has no message, and otherwise exactly the six columns of
    the dict literal, [label_count], and one column [label_<t>] per label
    type [t] that occurs on some message. *)
Theorem to_dataframe_columns self df c :
  to_dataframe to_datetime self = inr df →
  c ∈ columns df ↔
  tagged_messages self ≠ [] ∧
  (c ∈ base_columns ∨ c = "label_count" ∨
   ∃ t, observed t self ∧ c = label_column t).
Proof.
  intros Hdf. destruct (to_dataframe_inr _ self df Hdf) as (rows & -> & Hrows).
  rewrite (columns_rows_of _ _ _ _ Hrows). split.
  - intros (sm & ts & Hsm & Hc). split.
    { intros Hnil. rewrite Hnil in Hsm. by apply elem_of_nil in Hsm. }
    rewrite row_of_dom, !elem_of_union, elem_of_list_to_set,
      elem_of_singleton, elem_of_list_to_set in Hc.
    destruct Hc as [[Hc|Hc]|Hc]; [by left|right; by left|].
    apply list_elem_of_fmap in Hc as (l & -> & Hl).
    right; right. exists (label_type l). split; [|done].
    exists sm. split; [done|]. by exists l.
  - intros [Hne Hc].
    assert (∀ sm, sm ∈ tagged_messages self →
              ∃ ts : Timestamp, to_datetime (timestamp sm.2) = Some ts)
      as Hts.
    { intros sm [i Hi]%list_elem_of_lookup.
      destruct (Forall2_lookup_l _ _ _ _ _ Hrows Hi) as (_ & _ & ts & Hts & _).
      by exists ts. }
    destruct Hc as [Hc|[->|(t & (sm & Hsm & l & Hl & Ht) & ->)]].
    + destruct (tagged_messages self) as [|sm sms] eqn:Hsms; [done|].
      destruct (Hts sm) as [ts _]; [left|].
      exists sm, ts. split; [left|]. rewrite row_of_dom. set_solver.
    + destruct (tagged_messages self) as [|sm sms] eqn:Hsms; [done|].
      destruct (Hts sm) as [ts _]; [left|].
      exists sm, ts. split; [left|]. rewrite row_of_dom. set_solver.
    + destruct (Hts sm Hsm) as [ts _].
      exists sm, ts. split; [done|]. rewrite row_of_dom.
      apply elem_of_union_r, elem_of_list_to_set, list_elem_of_fmap.
      exists l. by rewrite <-Ht.
Qed.

(** X11. No label can overwrite a cell of the dict literal: in a frame
    [to_dataframe] returns, the row of a message holds the session id, the
    message id, the command, the sender, the parsed timestamp and the video
    frame id (null when the message has none), whatever labels the message
    carries. *)
Theorem to_dataframe_fixed_cells self df i sm :
  to_dataframe to_datetime self = inr df →
  tagged_messages self !! i = Some sm →
  cell df i "session_id" = Some (Json (JStr sm.1)) ∧
  cell df i "message_id" = Some (Json (msg_id sm.2)) ∧
  cell df i "command" = Some (Json (JStr (command sm.2))) ∧
  cell df i "sender" = Some (Json (JStr (sender sm.2))) ∧
  (∃ ts, to_datetime (timestamp sm.2) = Some ts ∧
         cell df i "timestamp" = Some (Datetime ts)) ∧
  cell df i "video_frame_id" =
    Some (Json (default JNull (video_frame_id sm.2))).
Proof.
  intros Hdf Hi.
  destruct (to_dataframe_inr _ self df Hdf) as (rows & -> & Hrows).
  destruct (Forall2_lookup_l _ _ _ _ _ Hrows Hi) as (r & Hr & ts & Hts & ->).
  unfold cell. simpl. rewrite Hr. simpl.
  assert (∀ k, k ∈ base_columns →
            row_of sm.1 sm.2 ts !! k = base_row sm.1 sm.2 ts !! k) as Hbase
    by (intros k Hk; by apply row_of_base).
  unfold base_columns in Hbase.
  split_and!; try (rewrite Hbase by set_solver; done).
  exists ts. split; [done|]. by rewrite Hbase by set_solver.
Qed.

End projecting.

(** * Further properties of the statistics *)

Section counting.
Implicit Types (items : list Message) (ss : list Session).

Lemma sum_values_comm (z1 z2 y : nat) :
  z1 + (z2 + y) = z2 + (z1 + y).
Proof. lia. Qed.

Lemma sum_values_insert (m : gmap string nat) k v :
  m !! k = None → sum_values (<[k := v]> m) = v + sum_values m.
Proof.
  intros Hk. unfold sum_values.
  rewrite map_fold_insert_L; [done| |done].
  intros. apply sum_values_comm.
Qed.

(** [senders[k] = senders.get(k, 0) + 1] adds one to the sum. *)
Lemma sum_values_bump (m : gmap string nat) k :
  sum_values (<[k := default 0 (m !! k) + 1]> m) = sum_values m + 1.
Proof.
  destruct (m !! k) as [v|] eqn:Hk; simpl.
  - rewrite <-(insert_delete_eq m k (v + 1)).
    rewrite sum_values_insert by apply lookup_delete_eq.
    unfold sum_values at 2.
    rewrite (map_fold_delete_L _ _ k v m); [fold (sum_values (delete k m)); lia| |done].
    intros. apply sum_values_comm.
  - rewrite sum_values_insert by done. lia.
Qed.

Lemma count_items_sum items (m : gmap string nat) n :
  sum_values (fold_left count_item items (m, n)).1 =
  sum_values m + length items.
Proof.
  revert m n. induction items as [|item items IH]; intros m n; simpl; [lia|].
  rewrite IH, sum_values_bump. lia.
Qed.

Lemma all_messages_length self :
  length (all_messages self) = sum_list_with (length ∘ data) (sessions self).
Proof.
  unfold all_messages. induction (sessions self) as [|s ss IH]; [done|].
  simpl. by rewrite length_app, IH.
Qed.

(** The fields of the statistics, read off the loops. *)
Lemma get_statistics_fields self :
  total_messages (get_statistics self) = length (all_messages self) ∧
  total_labels (get_statistics self) =
    sum_list_with (length ∘ get_labels) (all_messages self) ∧
  ∀ s, messages_by_sender (get_statistics self) !! s =
       if decide (sender_count s (all_messages self) = 0) then None
       else Some (sender_count s (all_messages self)).
Proof.
  unfold get_statistics.
  rewrite sessions_fold_flat, total_messages_fold, all_messages_length.
  unfold all_messages.
  destruct (count_items_spec (flat_map data (sessions self)))
    as (senders & -> & Hs).
  done.
Qed.

Lemma get_statistics_sessions self :
  total_sessions (get_statistics self) = length (sessions self).
Proof. unfold get_statistics. by destruct (fold_left _ _ _). Qed.

(** X13. The per-sender counts add up: the values of
    [messages_by_sender] sum to [total_messages]. *)
Theorem messages_by_sender_sum self :
  sum_values (messages_by_sender (get_statistics self)) =
  total_messages (get_statistics self).
Proof.
  unfold get_statistics.
  rewrite sessions_fold_flat, total_messages_fold.
  pose proof (count_items_sum (flat_map data (sessions self)) ∅ 0) as Hsum.
  destruct (fold_left count_item _ _) as [senders n]. simpl in *.
  rewrite Hsum. unfold sum_values at 1. rewrite map_fold_empty.
  pose proof (all_messages_length self) as Hlen.
  unfold all_messages in Hlen. lia.
Qed.

Lemma sender_count_filter s s' items :
  sender_count s' (filter (λ m, sender m = s) items) =
  if decide (s' = s) then sender_count s items else 0.
Proof.
  unfold sender_count. rewrite list_filter_filter.
  destruct (decide (s' = s)) as [->|Hne].
  - f_equal. apply list_filter_iff. naive_solver.
  - destruct (filter _ items) as [|m ms] eqn:Hf; [done|].
    assert (m ∈ filter (λ m, sender m = s' ∧ sender m = s) items) as Hin
      by (rewrite Hf; left).
    apply list_elem_of_filter in Hin as [[? ?] _]. congruence.
Qed.

(** X14. Statistics of a sender filter: the result of [filter_by_sender s]
    has as many messages as the original counts for [s], its
    [messages_by_sender] has the original entry for [s] and no other entry,
    and all of its labels sit on messages of [s]. *)
Theorem filter_by_sender_statistics self s w d :
  heap w !! self = Some d →
  ∃ r w' d',
    filter_by_sender self s w = (inr r, w') ∧ heap w' !! r = Some d' ∧
    total_messages (get_statistics d') =
      default 0 (messages_by_sender (get_statistics d) !! s) ∧
    messages_by_sender (get_statistics d') !! s =
      messages_by_sender (get_statistics d) !! s ∧
    (∀ s', s' ≠ s → messages_by_sender (get_statistics d') !! s' = None) ∧
    (total_sessions (get_statistics d') ≤ total_sessions (get_statistics d))%nat.
Proof.
  intros Hd. eexists _, _, _. split; [by apply filter_by_sender_run|].
  split; [apply lookup_insert_eq|].
  destruct (get_statistics_fields d) as (_ & _ & Hby).
  destruct (get_statistics_fields
              (filtered_instance d (kept_sessions (λ m, sender m = s)
                                                  (sessions d))))
    as (Htot' & _ & Hby').
  rewrite all_messages_kept in Htot', Hby'.
  split_and!.
  - rewrite Htot', Hby. fold (sender_count s (all_messages d)).
    by case_decide.
  - rewrite Hby', Hby, sender_count_filter.
    by destruct (decide (s = s)).
  - intros s' Hne. rewrite Hby', sender_count_filter.
    by destruct (decide (s' = s)).
  - rewrite !get_statistics_sessions. simpl. unfold kept_sessions.
    pose proof (length_filter (λ s0 : Session, data s0 ≠ [])
                  (restrict (λ m, sender m = s) <$> sessions d)) as Hlen.
    by rewrite length_fmap in Hlen.
Qed.

Lemma labels_sum_filter (P : Message → Prop) `{!∀ m, Decision (P m)} items :
  (∀ m, m ∈ items → ¬ P m → get_labels m = []) →
  sum_list_with (length ∘ get_labels) (filter P items) =
  sum_list_with (length ∘ get_labels) items.
Proof.
  induction items as [|m items IH]; intros Hnone; [done|].
  rewrite filter_cons. destruct (decide (P m)) as [Hm|Hm]; simpl.
  - rewrite IH; [done|]. intros m' Hm'. apply Hnone. by right.
  - rewrite IH by (intros m' Hm'; apply Hnone; by right).
    rewrite (Hnone m); [done|left|done].
Qed.

Lemma labels_sum_labelled items :
  Forall (λ m, get_labels m ≠ []) items →
  (length items ≤ sum_list_with (length ∘ get_labels) items)%nat.
Proof.
  induction 1 as [|m items Hm _ IH]; [done|]. simpl.
  destruct (get_labels m); [done|]. simpl. lia.
Qed.

Lemma labels_sum_sublist (P : Message → Prop) `{!∀ m, Decision (P m)} items :
  (sum_list_with (length ∘ get_labels) (filter P items)
   ≤ sum_list_with (length ∘ get_labels) items)%nat.
Proof.
  induction items as [|m items IH]; [done|].
  rewrite filter_cons. destruct (decide (P m)); simpl; lia.
Qed.

(** X15. Statistics of a label filter: in the result of
    [filter_by_labels] there is at least one label per message; without a
    label type the filter loses no label ([total_labels] is that of the
    original), with a label type it can only lose some. *)
Theorem filter_by_labels_statistics self lt w d :
  heap w !! self = Some d →
  ∃ r w' d',
    filter_by_labels self lt w = (inr r, w') ∧ heap w' !! r = Some d' ∧
    (total_messages (get_statistics d')
     ≤ total_labels (get_statistics d'))%nat ∧
    (total_labels (get_statistics d')
     ≤ total_labels (get_statistics d))%nat ∧
    (lt = None →
     total_labels (get_statistics d') = total_labels (get_statistics d)).
Proof.
  intros Hd. eexists _, _, _. split; [by apply filter_by_labels_run|].
  split; [apply lookup_insert_eq|].
  destruct (get_statistics_fields d) as (_ & Hlab & _).
  destruct (get_statistics_fields
              (filtered_instance d (kept_sessions (label_match lt)
                                                  (sessions d))))
    as (Htot' & Hlab' & _).
  rewrite all_messages_kept in Htot', Hlab'. rewrite Htot', Hlab', Hlab.
  split_and!.
  - apply labels_sum_labelled, Forall_forall.
    intros m [Hm _]%list_elem_of_filter. by eapply label_match_labelled.
  - apply labels_sum_sublist.
  - intros ->. apply labels_sum_filter. intros m _ Hm. simpl in Hm.
    by destruct (get_labels m) as [|l ls]; [|destruct Hm].
Qed.
End counting.


(** * Composing the filters *)

Section composing.
Implicit Types (ss : list Session) (w : world) (d : RobotLearningDataset).

Lemma filter_by_sender_filters s :
  filters_as (λ self, filter_by_sender self s) (λ m, sender m = s).
Proof. intros self w d Hd. by apply filter_by_sender_run. Qed.

Lemma filter_by_labels_filters lt :
  filters_as (λ self, filter_by_labels self lt) (label_match lt).
Proof. intros self w d Hd. by apply filter_by_labels_run. Qed.

(** Filtering kept sessions again: the messages are filtered twice, and a
    session is dropped when nothing is left of it. *)
Lemma kept_kept (P Q : Message → Prop)
    `{!∀ m, Decision (P m), !∀ m, Decision (Q m)} ss :
  kept_sessions P (kept_sessions Q ss) =
  filter (λ s, data s ≠ [])
    ((λ s, mkSession (session_id s) (filter P (filter Q (data s))) (info s))
       <$> ss).
Proof.
  unfold kept_sessions. induction ss as [|s ss IH]; [done|].
  rewrite !fmap_cons.
  destruct (decide (filter Q (data s) ≠ [])) as [HQ|HQ].
  - rewrite (filter_cons_True _ (restrict Q s)) by exact HQ.
    by rewrite fmap_cons, !filter_cons, IH.
  - assert (filter Q (data s) = []) as HQ'
      by (destruct (filter Q (data s)); [done|by destruct HQ]).
    rewrite (filter_cons_False _ (restrict Q s)) by (by intros Hnn).
    rewrite IH, filter_cons_False; [done|].
    simpl. rewrite HQ'. by intros Hnn.
Qed.

Lemma filter_filter_comm (P Q : Message → Prop)
    `{!∀ m, Decision (P m), !∀ m, Decision (Q m)} (items : list Message) :
  filter P (filter Q items) = filter Q (filter P items).
Proof.
  rewrite !list_filter_filter. apply list_filter_iff. naive_solver.
Qed.

Lemma filter_filter_implied (P Q : Message → Prop)
    `{!∀ m, Decision (P m), !∀ m, Decision (Q m)} (items : list Message) :
  (∀ m, P m → Q m) →
  filter P (filter Q items) = filter P items ∧
  filter Q (filter P items) = filter P items.
Proof.
  intros HPQ. rewrite !list_filter_filter.
  split; apply list_filter_iff; naive_solver.
Qed.

(** Two filters in a row. *)
Lemma two_filters (f1 f2 : loc → M loc) (P Q : Message → Prop)
    `{!∀ m, Decision (P m), !∀ m, Decision (Q m)} self w d :
  filters_as f1 P → filters_as f2 Q →
  heap w !! self = Some d →
  ∃ r w', bind (f1 self) f2 w = (inr r, w') ∧
          heap w' !! r =
            Some (filtered_instance d
                    (kept_sessions Q (kept_sessions P (sessions d)))) ∧
          heap w' !! self = Some d.
Proof.
  intros H1 H2 Hd. unfold bind. rewrite (H1 self w d Hd).
  set (r1 := fresh (dom (heap w))).
  set (w1 := with_filtered w r1 d _).
  assert (heap w1 !! r1 = Some (filtered_instance d
            (kept_sessions P (sessions d)))) as Hr1
    by apply lookup_insert_eq.
  assert (r1 ≠ self) as Hne1.
  { intros Heq. pose proof (fresh_unallocated w) as Hf. fold r1 in Hf.
    congruence. }
  assert (heap w1 !! self = Some d) as Hself1
    by (subst w1; simpl; by rewrite lookup_insert_ne).
  rewrite (H2 r1 w1 _ Hr1).
  set (r2 := fresh (dom (heap w1))).
  assert (r2 ≠ self) as Hne2.
  { intros Heq. pose proof (fresh_unallocated w1) as Hf. fold r2 in Hf.
    congruence. }
  eexists _, _. split; [done|]. simpl.
  split; [by rewrite lookup_insert_eq|]. by rewrite lookup_insert_ne.
Qed.

(** X16. The two filters commute: filtering by sender and then by label
    gives an instance with the same value as filtering by label and then by
    sender, and neither order changes the original. *)
Theorem filters_commute self s lt w d :
  heap w !! self = Some d →
  ∃ r1 w1 r2 w2 d',
    bind (filter_by_sender self s) (λ r, filter_by_labels r lt) w
      = (inr r1, w1) ∧
    bind (filter_by_labels self lt) (λ r, filter_by_sender r s) w
      = (inr r2, w2) ∧
    heap w1 !! r1 = Some d' ∧ heap w2 !! r2 = Some d' ∧
    all_messages d' =
      filter (label_match lt) (filter (λ m, sender m = s) (all_messages d)) ∧
    heap w1 !! self = Some d ∧ heap w2 !! self = Some d.
Proof.
  intros Hd.
  destruct (two_filters _ _ _ _ self w d (filter_by_sender_filters s)
              (filter_by_labels_filters lt) Hd) as (r1 & w1 & Hrun1 & Hr1 & Hs1).
  destruct (two_filters _ _ _ _ self w d (filter_by_labels_filters lt)
              (filter_by_sender_filters s) Hd) as (r2 & w2 & Hrun2 & Hr2 & Hs2).
  eexists r1, w1, r2, w2, _. split; [exact Hrun1|]. split; [exact Hrun2|].
  split; [exact Hr1|]. split; [|split; [|done]].
  - rewrite Hr2. do 2 f_equal. rewrite !kept_kept. f_equal.
    apply list_fmap_ext. intros _ s0 _. f_equal. apply filter_filter_comm.
  - pose proof (all_messages_kept (label_match lt)
                  (filtered_instance d (kept_sessions (λ m, sender m = s)
                                                      (sessions d)))) as Hall.
    simpl in Hall. unfold filtered_instance at 1 in Hall. simpl in Hall.
    unfold filtered_instance at 1. rewrite Hall.
    by rewrite all_messages_kept.
Qed.

(** X17. Filtering twice with the same argument changes nothing more:
    the second result has the same value as the first, for the sender
    filter and for the label filter. *)
Theorem filters_idempotent self w d :
  heap w !! self = Some d →
  (∀ s, ∃ r w' d',
     bind (filter_by_sender self s) (λ r, filter_by_sender r s) w
       = (inr r, w') ∧
     heap w' !! r = Some d' ∧ heap w' !! fresh (dom (heap w)) = Some d') ∧
  (∀ lt, ∃ r w' d',
     bind (filter_by_labels self lt) (λ r, filter_by_labels r lt) w
       = (inr r, w') ∧
     heap w' !! r = Some d' ∧ heap w' !! fresh (dom (heap w)) = Some d').
Proof.
  intros Hd.
  assert (∀ (f : loc → M loc) (P : Message → Prop)
            `{!∀ m, Decision (P m)},
            filters_as f P →
            ∃ r w' d', bind (f self) f w = (inr r, w') ∧
                       heap w' !! r = Some d' ∧
                       heap w' !! fresh (dom (heap w)) = Some d') as Hgen.
  { intros f P HP Hf. unfold bind. rewrite (Hf self w d Hd).
    set (r1 := fresh (dom (heap w))).
    set (w1 := with_filtered w r1 d _).
    assert (heap w1 !! r1 = Some (filtered_instance d
              (kept_sessions P (sessions d)))) as Hr1
      by apply lookup_insert_eq.
    rewrite (Hf r1 w1 _ Hr1).
    pose proof (fresh_unallocated w1) as Hfresh.
    assert (fresh (dom (heap w1)) ≠ r1) as Hne by congruence.
    eexists _, _, _. split; [done|]. simpl.
    split; [by rewrite lookup_insert_eq|].
    rewrite lookup_insert_ne, lookup_insert_eq by done.
    unfold filtered_instance. simpl. do 2 f_equal.
    rewrite kept_kept. unfold kept_sessions. f_equal.
    apply list_fmap_ext. intros _ s0 _. unfold restrict. f_equal.
    symmetry. by apply (filter_filter_implied P P). }
  split.
  - intros s. apply (Hgen _ _ _ (filter_by_sender_filters s)).
  - intros lt. apply (Hgen _ _ _ (filter_by_labels_filters lt)).
Qed.

(** X18. The label-type filter refines the any-label filter: asking for
    any label first and then for type [t], or for [t] first and then for any
    label, gives an instance with the same value as asking for [t]
    alone. *)
Theorem filter_by_labels_refines self t w d :
  heap w !! self = Some d →
  ∃ r0 w0 r1 w1 r2 w2 d',
    filter_by_labels self (Some t) w = (inr r0, w0) ∧
    bind (filter_by_labels self None) (λ r, filter_by_labels r (Some t)) w
      = (inr r1, w1) ∧
    bind (filter_by_labels self (Some t)) (λ r, filter_by_labels r None) w
      = (inr r2, w2) ∧
    heap w0 !! r0 = Some d' ∧ heap w1 !! r1 = Some d' ∧
    heap w2 !! r2 = Some d'.
Proof.
  intros Hd.
  destruct (two_filters _ _ _ _ self w d (filter_by_labels_filters None)
              (filter_by_labels_filters (Some t)) Hd)
    as (r1 & w1 & Hrun1 & Hr1 & _).
  destruct (two_filters _ _ _ _ self w d (filter_by_labels_filters (Some t))
              (filter_by_labels_filters None) Hd)
    as (r2 & w2 & Hrun2 & Hr2 & _).
  eexists _, _, r1, w1, r2, w2, _.
  split; [by apply filter_by_labels_run|].
  split; [exact Hrun1|]. split; [exact Hrun2|].
  split; [apply lookup_insert_eq|].
  assert (∀ m, label_match (Some t) m → label_match None m) as Himp
    by (intros m Hm; by eapply label_match_labelled).
  split.
  - rewrite Hr1. do 2 f_equal. rewrite kept_kept. unfold kept_sessions.
    f_equal. apply list_fmap_ext. intros _ s0 _. unfold restrict.
    f_equal. by apply filter_filter_implied.
  - rewrite Hr2. do 2 f_equal. rewrite kept_kept. unfold kept_sessions.
    f_equal. apply list_fmap_ext. intros _ s0 _. unfold restrict.
    f_equal. by apply filter_filter_implied.
Qed.
End composing.

(** * The framework conversions *)

Section converting.
Context {Timestamp : Type}.
Variable to_datetime : string → option Timestamp.
Local Abbreviation row := (gmap string (pyval Timestamp)).

Lemma append_loop {A B} (f : A → B) (xs : list A) (acc : list B) :
  fold_left (λ acc x, acc ++ [f x]) xs acc = acc ++ (f <$> xs).
Proof.
  revert acc. induction xs as [|x xs IH]; intros acc; simpl.
  - by rewrite app_nil_r.
  - by rewrite IH, <-app_assoc.
Qed.

Lemma sessions_append_loop {B} (f : Session → Message → B)
    (ss : list Session) (acc : list B) :
  fold_left (λ out session,
    fold_left (λ out item, out ++ [f session item]) (data session) out)
    ss acc =
  acc ++ flat_map (λ s, f s <$> data s) ss.
Proof.
  revert acc. induction ss as [|s ss IH]; intros acc; cbn [fold_left flat_map].
  - by rewrite app_nil_r.
  - by rewrite (append_loop (f s)), IH, <-app_assoc.
Qed.

Lemma generator_eq self : generator self = tf_of <$> all_messages self.
Proof.
  change (generator self) with
    (fold_left (λ yielded session,
       fold_left (λ yielded item, yielded ++ [(λ _, tf_of) session item])
                 (data session) yielded) (sessions self) []).
  rewrite (sessions_append_loop (λ _, tf_of)), app_nil_l.
  unfold all_messages. induction (sessions self) as [|s ss IH]; [done|].
  simpl. by rewrite fmap_app, IH.
Qed.

Lemma all_data_eq self : all_data self = hf_of <$> tagged_messages self.
Proof.
  change (all_data self) with
    (fold_left (λ out session,
       fold_left (λ out item,
                    out ++ [(λ s m, hf_of (session_id s, m)) session item])
                 (data session) out) (sessions self) []).
  rewrite (sessions_append_loop (λ s m, hf_of (session_id s, m))), app_nil_l.
  unfold tagged_messages. induction (sessions self) as [|s ss IH]; [done|].
  simpl. by rewrite fmap_app, IH, <-list_fmap_compose.
Qed.

Lemma sum_list_with_fmap {A B} (f : B → nat) (g : A → B) (xs : list A) :
  sum_list_with f (g <$> xs) = sum_list_with (f ∘ g) xs.
Proof. induction xs as [|x xs IH]; [done|]. csimpl. by rewrite IH. Qed.

(** X19. The generator of [to_tensorflow] agrees with the statistics: it
    yields one record per message, in session order then message order, so
    as many records as [total_messages], and the [label_count] fields of
    the records add up to [total_labels]. *)
Theorem generator_counts self :
  generator self = tf_of <$> all_messages self ∧
  length (generator self) = total_messages (get_statistics self) ∧
  sum_list_with tf_label_count (generator self) =
    total_labels (get_statistics self).
Proof.
  destruct (get_statistics_fields self) as (Htot & Hlab & _).
  rewrite generator_eq, Htot, Hlab. split; [done|].
  split; [by rewrite length_fmap|]. by rewrite sum_list_with_fmap.
Qed.

(** X20. The frame and the generator on the same message: they agree on
    the command and the sender; they agree on the label count when the
    message has no label of type ["count"]; and for a message without a
    video frame id the frame holds a null where the generator yields the
    empty string. *)
Theorem generator_and_frame self df i sm :
  to_dataframe to_datetime self = inr df →
  tagged_messages self !! i = Some sm →
  ∃ rec,
    generator self !! i = Some rec ∧
    cell df i "command" = Some (Json (JStr (tf_command rec))) ∧
    cell df i "sender" = Some (Json (JStr (tf_sender rec))) ∧
    (¬ carries "count" sm.2 →
     cell df i "label_count" =
       Some (Json (JNum (Z.of_nat (tf_label_count rec))))) ∧
    (video_frame_id sm.2 = None →
     cell df i "video_frame_id" = Some (Json JNull) ∧
     tf_video_frame_id rec = JStr "") ∧
    (∀ v, video_frame_id sm.2 = Some v →
     cell df i "video_frame_id" = Some (Json v) ∧
     tf_video_frame_id rec = v).
Proof.
  intros Hdf Hi.
  destruct (to_dataframe_inr _ self df Hdf) as (rows & -> & Hrows).
  destruct (Forall2_lookup_l _ _ _ _ _ Hrows Hi) as (r & Hr & ts & Hts & ->).
  exists (tf_of sm.2). split.
  { rewrite generator_eq, all_messages_tagged, <-list_fmap_compose.
    by rewrite list_lookup_fmap, Hi. }
  unfold cell. simpl. rewrite Hr. simpl.
  assert (∀ k, k ∈ base_columns →
            row_of sm.1 sm.2 ts !! k = base_row sm.1 sm.2 ts !! k) as Hbase
    by (intros k Hk; by apply row_of_base).
  unfold base_columns in Hbase.
  split_and!.
  - by rewrite Hbase by set_solver.
  - by rewrite Hbase by set_solver.
  - intros Hc. by apply row_of_label_count.
  - intros Hnone. rewrite Hbase by set_solver. unfold base_row.
    rewrite lookup_insert_ne, lookup_insert_eq by done. by rewrite Hnone.
  - intros v Hv. rewrite Hbase by set_solver. unfold base_row.
    rewrite lookup_insert_ne, lookup_insert_eq by done. by rewrite Hv.
Qed.

(** X21. The list [to_huggingface] builds: one record per message, in
    session order then message order, each with the id of its session and
    the labels of the message unflattened; its labels add up to
    [total_labels], each record has as many labels as the generator counts
    for that message, and its ids are the [session_id] and [message_id]
    columns of a frame [to_dataframe] returns. *)
Theorem all_data_spec self :
  all_data self = hf_of <$> tagged_messages self ∧
  length (all_data self) = total_messages (get_statistics self) ∧
  sum_list_with (length ∘ hf_labels) (all_data self) =
    total_labels (get_statistics self) ∧
  (length ∘ hf_labels) <$> all_data self =
    tf_label_count <$> generator self ∧
  ∀ df, to_dataframe to_datetime self = inr df →
    (λ r : row, (r !! "session_id", r !! "message_id")) <$> records df =
    (λ rec, (Some (Json (JStr (hf_session_id rec))),
             Some (Json (hf_id rec)))) <$> all_data self.
Proof.
  destruct (get_statistics_fields self) as (Htot & Hlab & _).
  rewrite all_data_eq, generator_eq, Htot, Hlab, all_messages_tagged.
  split_and!.
  - done.
  - by rewrite !length_fmap.
  - by rewrite !sum_list_with_fmap.
  - by rewrite <-!list_fmap_compose.
  - intros df Hdf.
    destruct (to_dataframe_inr _ self df Hdf) as (rows & -> & Hrows).
    simpl. rewrite <-list_fmap_compose. clear Hdf.
    induction Hrows as [|sm r sms rows (ts & _ & ->) _ IH]; [done|].
    rewrite !fmap_cons, row_of_session_id, row_of_message_id. by f_equal.
Qed.

Lemma filter_fmap_pred {A B} (f : A → B) (P : B → Prop)
    `{!∀ b, Decision (P b)} (xs : list A) :
  filter P (f <$> xs) = f <$> filter (λ a, P (f a)) xs.
Proof.
  induction xs as [|x xs IH]; [done|].
  rewrite fmap_cons, !filter_cons. simpl.
  destruct (decide (P (f x))); by rewrite ?fmap_cons, IH.
Qed.

(** X22. The conversions commute with the sender filter: the records of
    the result of [filter_by_sender s] are the records of the original whose
    sender is [s], in the same order, for the list of [to_huggingface] and
    for the generator of [to_tensorflow]. *)
Theorem conversions_of_filter self s w d :
  heap w !! self = Some d →
  ∃ r w' d',
    filter_by_sender self s w = (inr r, w') ∧ heap w' !! r = Some d' ∧
    all_data d' = filter (λ rec, hf_sender rec = s) (all_data d) ∧
    generator d' = filter (λ rec, tf_sender rec = s) (generator d).
Proof.
  intros Hd. eexists _, _, _. split; [by apply filter_by_sender_run|].
  split; [apply lookup_insert_eq|].
  rewrite !all_data_eq, !generator_eq, tagged_kept, all_messages_kept.
  by rewrite !filter_fmap_pred.
Qed.
End converting.


(** * The further properties, run *)

Section more_examples.
Import Examples.

Lemma load_session_appends_witness :
  heap (holding []) !! 1%positive = Some (collection []) ∧
  disk !! session_file (collection []) "s1" = Some (export s1) ∧
  ∃ w', load_session disk 1%positive "s1" (holding []) = (inr tt, w') ∧
        heap w' !! 1%positive = Some (collection [s1]).
Proof.
  split; [reflexivity|]. split; [reflexivity|].
  destruct (load_session_appends disk 1%positive "s1" (holding [])
              (collection []) _ (data s1) (info s1)
              eq_refl eq_refl eq_refl eq_refl) as (w' & Hrun & Hself & _).
  exists w'. split; [exact Hrun|exact Hself].
Defined.

Lemma load_session_malformed_witness :
  heap (holding [s1]) !! 1%positive = Some (collection [s1]) ∧
  broken_disk !! session_file (collection [s1]) "s2" = Some None ∧
  load_session broken_disk 1%positive "s2" (holding [s1])
    = (inl JSONDecodeError, holding [s1]).
Proof.
  split; [reflexivity|]. split; [reflexivity|].
  destruct (load_session_malformed broken_disk 1%positive "s2" (holding [s1])
              (collection [s1]) eq_refl) as [Hjson _].
  exact (Hjson eq_refl).
Defined.

Lemma load_session_twice_witness :
  heap (holding []) !! 1%positive = Some (collection []) ∧
  disk !! session_file (collection []) "s1" = Some (export s1) ∧
  ∃ w', bind (load_session disk 1%positive "s1")
             (λ _, load_session disk 1%positive "s1") (holding [])
          = (inr tt, w') ∧
        heap w' !! 1%positive = Some (collection [s1; s1]).
Proof.
  split; [reflexivity|]. split; [reflexivity|].
  destruct (load_session_twice disk 1%positive "s1" (holding [])
              (collection []) _ (data s1) (info s1)
              eq_refl eq_refl eq_refl eq_refl) as (w' & Hrun & Hself).
  exists w'. split; [exact Hrun|exact Hself].
Defined.

Lemma readable_s1 : readable broken_disk (collection []) [mkEntry "s1"].
Proof.
  apply Forall_cons; split; [right; vm_compute; by eexists|constructor].
Qed.

(** The export of [s2] is not JSON: [s1] stays loaded, [s3] is never
    looked at. *)
Lemma load_from_manifest_aborts_witness :
  heap (holding []) !! 1%positive = Some (collection []) ∧
  readable broken_disk (collection []) [mkEntry "s1"] ∧
  is_Some (broken_disk !! session_file (collection []) "s2") ∧
  found broken_disk (collection []) (mkEntry "s2") = None ∧
  ∃ x w', load_from_manifest broken_disk 1%positive (holding []) = (inl x, w') ∧
          heap w' !! 1%positive = Some (collection [s1]) ∧
          stdout w' = [].
Proof.
  assert (is_Some (broken_disk !! session_file (collection []) "s2")) as Hex
    by (vm_compute; by eexists).
  split; [reflexivity|]. split; [exact readable_s1|].
  split; [exact Hex|]. split; [reflexivity|].
  destruct (load_from_manifest_aborts broken_disk 1%positive (holding [])
              (collection []) _ [mkEntry "s1"] (mkEntry "s2") [mkEntry "s3"]
              eq_refl eq_refl eq_refl readable_s1 Hex eq_refl)
    as (x & w' & Hrun & _ & Hself & _ & Hout).
  exists x, w'. split; [exact Hrun|]. split; [exact Hself|exact Hout].
Defined.

Lemma load_from_manifest_malformed_witness :
  heap (holding [s1]) !! 1%positive = Some (collection [s1]) ∧
  no_manifest_disk !! manifest_file (collection [s1]) = Some None ∧
  load_from_manifest no_manifest_disk 1%positive (holding [s1])
    = (inl JSONDecodeError, holding [s1]).
Proof.
  split; [reflexivity|]. split; [reflexivity|].
  destruct (load_from_manifest_malformed no_manifest_disk 1%positive
              (holding [s1]) (collection [s1]) eq_refl) as [Hjson _].
  exact (Hjson eq_refl).
Defined.

(** Three entries: two sessions added and one line printed. *)
Lemma load_from_manifest_accounts_witness :
  load_from_manifest disk 1%positive (holding [])
    = (inr tt, mkWorld {[ 1%positive := collection [s1; s3] ]}
                       ["Warning: Could not load session s2"]) ∧
  (2 - 0) + (1 - 0) = length entries.
Proof.
  assert (load_from_manifest disk 1%positive (holding [])
          = (inr tt, mkWorld {[ 1%positive := collection [s1; s3] ]}
                             ["Warning: Could not load session s2"])) as Hrun
    by (vm_compute; reflexivity).
  split; [exact Hrun|].
  destruct (load_from_manifest_accounts disk 1%positive (holding [])
              (collection []) _ entries _ (collection [s1; s3])
              eq_refl eq_refl eq_refl Hrun eq_refl) as [Hsum _].
  exact Hsum.
Defined.

Lemma from_session_spec_witness :
  disk !! session_file
            (mkDataset "../data" (path_join "../data" "exports") []) "s1"
    = Some (export s1) ∧
  ∃ w', from_session disk "s1" "../data" (mkWorld ∅ []) = (inr 1%positive, w') ∧
        heap w' !! 1%positive = Some (collection [s1]).
Proof.
  split; [reflexivity|].
  destruct (from_session_spec disk "s1" "../data" (mkWorld ∅ [])) as [_ Hfound].
  destruct (Hfound _ (data s1) (info s1) eq_refl eq_refl eq_refl)
    as (w' & Hrun & _ & Hself & _).
  exists w'. split; [exact Hrun|exact Hself].
Defined.

Lemma from_manifest_spec_witness :
  readable disk (collection []) entries ∧
  ∃ w' d', from_manifest disk "../data" (mkWorld ∅ []) = (inr 1%positive, w') ∧
           heap w' !! 1%positive = Some d' ∧
           session_id <$> sessions d' = ["s1"; "s3"] ∧
           stdout w' = ["Warning: Could not load session s2"].
Proof.
  split; [exact readable_disk|].
  destruct (from_manifest_spec disk "../data" (mkWorld ∅ [])) as [_ Hload].
  destruct (Hload _ entries eq_refl eq_refl readable_disk)
    as (w' & d' & Hrun & _ & Hself & _ & Hids & _ & Hout).
  exists w', d'. split; [exact Hrun|]. split; [exact Hself|].
  split; [exact Hids|exact Hout].
Defined.

Lemma from_session_to_dataframe_witness :
  disk !! session_file
            (mkDataset "../data" (path_join "../data" "exports") []) "s1"
    = Some (export s1) ∧
  Forall (λ m, is_Some (to_datetime (timestamp m))) (data s1) ∧
  ∃ r w' d' df,
    from_session disk "s1" "../data" (mkWorld ∅ []) = (inr r, w') ∧
    heap w' !! r = Some d' ∧
    to_dataframe to_datetime d' = inr df ∧ length (records df) = 2.
Proof.
  assert (Forall (λ m, is_Some (to_datetime (timestamp m))) (data s1)) as Hp
    by (repeat constructor; by eexists).
  split; [reflexivity|]. split; [exact Hp|].
  destruct (from_session_to_dataframe to_datetime disk "s1" "../data"
              (mkWorld ∅ []) _ (data s1) (info s1) eq_refl eq_refl eq_refl Hp)
    as (r & w' & d' & df & Hrun & Hr & Hdf & Hlen & _).
  exists r, w', d', df. split; [exact Hrun|]. split; [exact Hr|].
  split; [exact Hdf|exact Hlen].
Defined.

Lemma to_dataframe_columns_witness :
  to_dataframe to_datetime (collection [s1; s3]) = inr (frame [s1; s3]) ∧
  ("label_quality" ∈ columns (frame [s1; s3]) ↔
   tagged_messages (collection [s1; s3]) ≠ [] ∧
   ("label_quality" ∈ base_columns ∨ "label_quality" = "label_count" ∨
    ∃ t, observed t (collection [s1; s3]) ∧
         "label_quality" = label_column t)).
Proof.
  assert (to_dataframe to_datetime (collection [s1; s3])
          = inr (frame [s1; s3])) as Hdf by reflexivity.
  split; [exact Hdf|].
  exact (to_dataframe_columns to_datetime _ _ "label_quality" Hdf).
Defined.

Lemma to_dataframe_fixed_cells_witness :
  to_dataframe to_datetime (collection [s5]) = inr (frame [s5]) ∧
  tagged_messages (collection [s5]) !! 0 = Some ("s5", recounted) ∧
  cell (frame [s5]) 0 "command" = Some (Json (JStr "count again")) ∧
  cell (frame [s5]) 0 "video_frame_id" = Some (Json JNull).
Proof.
  assert (to_dataframe to_datetime (collection [s5]) = inr (frame [s5]))
    as Hdf by reflexivity.
  split; [exact Hdf|]. split; [reflexivity|].
  destruct (to_dataframe_fixed_cells to_datetime _ _ 0 ("s5", recounted)
              Hdf eq_refl) as (_ & _ & Hcommand & _ & _ & Hframe).
  split; [exact Hcommand|exact Hframe].
Defined.

Lemma filter_by_sender_statistics_witness :
  heap (holding [s1; s3]) !! 1%positive = Some (collection [s1; s3]) ∧
  ∃ r w' d',
    filter_by_sender 1%positive "scientist" (holding [s1; s3]) = (inr r, w') ∧
    heap w' !! r = Some d' ∧
    total_messages (get_statistics d') = 2.
Proof.
  split; [reflexivity|].
  destruct (filter_by_sender_statistics 1%positive "scientist"
              (holding [s1; s3]) (collection [s1; s3]) eq_refl)
    as (r & w' & d' & Hrun & Hr & Htot & _).
  exists r, w', d'. split; [exact Hrun|]. split; [exact Hr|exact Htot].
Defined.

Lemma filter_by_labels_statistics_witness :
  heap (holding [s1; s3]) !! 1%positive = Some (collection [s1; s3]) ∧
  ∃ r w' d',
    filter_by_labels 1%positive None (holding [s1; s3]) = (inr r, w') ∧
    heap w' !! r = Some d' ∧
    total_labels (get_statistics d') = 3.
Proof.
  split; [reflexivity|].
  destruct (filter_by_labels_statistics 1%positive None
              (holding [s1; s3]) (collection [s1; s3]) eq_refl)
    as (r & w' & d' & Hrun & Hr & _ & _ & Hsame).
  exists r, w', d'. split; [exact Hrun|]. split; [exact Hr|].
  exact (Hsame eq_refl).
Defined.

Lemma filters_commute_witness :
  heap (holding [s1; s3]) !! 1%positive = Some (collection [s1; s3]) ∧
  ∃ r1 w1 r2 w2 d',
    bind (filter_by_sender 1%positive "scientist")
         (λ r, filter_by_labels r (Some "quality")) (holding [s1; s3])
      = (inr r1, w1) ∧
    bind (filter_by_labels 1%positive (Some "quality"))
         (λ r, filter_by_sender r "scientist") (holding [s1; s3])
      = (inr r2, w2) ∧
    heap w1 !! r1 = Some d' ∧ heap w2 !! r2 = Some d' ∧
    all_messages d' = [labelled; relabelled].
Proof.
  split; [reflexivity|].
  destruct (filters_commute 1%positive "scientist" (Some "quality")
              (holding [s1; s3]) (collection [s1; s3]) eq_refl)
    as (r1 & w1 & r2 & w2 & d' & Hrun1 & Hrun2 & Hr1 & Hr2 & Hall & _).
  exists r1, w1, r2, w2, d'. split; [exact Hrun1|]. split; [exact Hrun2|].
  split; [exact Hr1|]. split; [exact Hr2|exact Hall].
Defined.

Lemma filters_idempotent_witness :
  heap (holding [s1; s3]) !! 1%positive = Some (collection [s1; s3]) ∧
  ∃ r w' d',
    bind (filter_by_sender 1%positive "robot")
         (λ r, filter_by_sender r "robot") (holding [s1; s3]) = (inr r, w') ∧
    heap w' !! r = Some d' ∧ heap w' !! 2%positive = Some d'.
Proof.
  split; [reflexivity|].
  destruct (filters_idempotent 1%positive (holding [s1; s3])
              (collection [s1; s3]) eq_refl) as [Hsender _].
  destruct (Hsender "robot") as (r & w' & d' & Hrun & Hr & Hfirst).
  exists r, w', d'. split; [exact Hrun|]. split; [exact Hr|exact Hfirst].
Defined.

Lemma filter_by_labels_refines_witness :
  heap (holding [s1; s3]) !! 1%positive = Some (collection [s1; s3]) ∧
  ∃ r0 w0 r1 w1 d',
    filter_by_labels 1%positive (Some "quality") (holding [s1; s3])
      = (inr r0, w0) ∧
    bind (filter_by_labels 1%positive None)
         (λ r, filter_by_labels r (Some "quality")) (holding [s1; s3])
      = (inr r1, w1) ∧
    heap w0 !! r0 = Some d' ∧ heap w1 !! r1 = Some d'.
Proof.
  split; [reflexivity|].
  destruct (filter_by_labels_refines 1%positive "quality"
              (holding [s1; s3]) (collection [s1; s3]) eq_refl)
    as (r0 & w0 & r1 & w1 & _ & _ & d' & Hrun0 & Hrun1 & _ & Hr0 & Hr1 & _).
  exists r0, w0, r1, w1, d'. split; [exact Hrun0|]. split; [exact Hrun1|].
  split; [exact Hr0|exact Hr1].
Defined.

(** The message of [s3] has two labels and no video frame: frame and
    generator count 2 labels, the frame holds a null and the generator
    yields an empty string. *)
Lemma generator_and_frame_witness :
  to_dataframe to_datetime (collection [s3]) = inr (frame [s3]) ∧
  tagged_messages (collection [s3]) !! 0 = Some ("s3", relabelled) ∧
  ∃ rec,
    generator (collection [s3]) !! 0 = Some rec ∧
    cell (frame [s3]) 0 "label_count"
      = Some (Json (JNum (Z.of_nat (tf_label_count rec)))) ∧
    cell (frame [s3]) 0 "video_frame_id" = Some (Json JNull) ∧
    tf_video_frame_id rec = JStr "".
Proof.
  assert (to_dataframe to_datetime (collection [s3]) = inr (frame [s3]))
    as Hdf by reflexivity.
  split; [exact Hdf|]. split; [reflexivity|].
  destruct (generator_and_frame to_datetime _ _ 0 ("s3", relabelled)
              Hdf eq_refl) as (rec & Hrec & _ & _ & Hcount & Hnone & _).
  exists rec. split; [exact Hrec|].
  split; [exact (Hcount relabelled_no_count)|].
  exact (Hnone eq_refl).
Defined.

Lemma all_data_spec_witness :
  to_dataframe to_datetime (collection [s1; s3]) = inr (frame [s1; s3]) ∧
  (λ r : gmap string (pyval stamp), (r !! "session_id", r !! "message_id"))
    <$> records (frame [s1; s3]) =
  (λ rec, (Some (Json (JStr (hf_session_id rec))), Some (Json (hf_id rec))))
    <$> all_data (collection [s1; s3]).
Proof.
  assert (to_dataframe to_datetime (collection [s1; s3])
          = inr (frame [s1; s3])) as Hdf by reflexivity.
  split; [exact Hdf|].
  destruct (all_data_spec to_datetime (collection [s1; s3]))
    as (_ & _ & _ & _ & Hids).
  exact (Hids _ Hdf).
Defined.

Lemma conversions_of_filter_witness :
  heap (holding [s1; s3]) !! 1%positive = Some (collection [s1; s3]) ∧
  ∃ r w' d',
    filter_by_sender 1%positive "robot" (holding [s1; s3]) = (inr r, w') ∧
    heap w' !! r = Some d' ∧
    generator d' = [tf_of plain].
Proof.
  split; [reflexivity|].
  destruct (conversions_of_filter 1%positive "robot"
              (holding [s1; s3]) (collection [s1; s3]) eq_refl)
    as (r & w' & d' & Hrun & Hr & _ & Hgen).
  exists r, w', d'. split; [exact Hrun|]. split; [exact Hr|exact Hgen].
Defined.
End more_examples.
